(** * Turnos_Peluqueria: the appointment store of [peluqueria.py]

    A shallow embedding of the class [Peluqueria] (clients, appointments,
    CSV persistence, slot-conflict check, booking, listing, modification)
    and the properties claimed about it.

    Conventions of the embedding.
    - A Python [dict] is an insertion-ordered association list with the
      update-in-place semantics of [d[k] = v] ([Dict.set]).
    - A Python [str] is a [string] (its UTF-8 bytes); a Python [int] is a [Z].
    - A CSV file is the list of rows that [csv.reader] yields and that
      [csv.writer] is given; quoting and line endings belong to the [csv]
      module and are not part of [peluqueria.py].
    - [input()] and [print()] are the arguments and the [Mensaje] result of
      each operation: an operation receives the answers that its prompts
      would have collected (already stripped, and parsed by [pedir_fecha],
      [pedir_hora] and [int]) and returns the message it prints last.
    - The built-ins [int] and [str.strip] and the parser [strptime] are
      parameters of the definitions that call them.
    - [Cliente] and [Turno] are the dataclasses with every field holding
      what its annotation says; [ClientePy] and [TurnoPy] are the same
      dataclasses as [cargar_datos] can build them, where a field declared
      [str] holds [None] after a row that was too short.  The operations of
      the menu are given on instances without [None]; [crudo] places such
      an instance among those that a load produces. *)

From Stdlib Require Import ZArith List String Ascii Bool Arith Lia.
From Stdlib Require Import Permutation Sorted.
From Stdlib Require Import Decimal DecimalString DecimalZ.
Import ListNotations.

Open Scope string_scope.
Open Scope Z_scope.

(* ------------------------------------------------------------------ *)
(** ** Insertion-ordered dictionaries *)

Module Dict.
Section Dict.
Context {K V : Type}.
Variable K_dec : forall a b : K, {a = b} + {a <> b}.

Definition t := list (K * V).

Definition empty : t := [].

(** [d.get(k)] *)
Fixpoint get (k : K) (d : t) : option V :=
  match d with
  | [] => None
  | (k', v) :: r => if K_dec k k' then Some v else get k r
  end.

(** [k in d] *)
Definition mem (k : K) (d : t) : bool :=
  match get k d with Some _ => true | None => false end.

(** [d[k] = v]: an existing key keeps its position, a new key goes last. *)
Fixpoint set (k : K) (v : V) (d : t) : t :=
  match d with
  | [] => [(k, v)]
  | (k', v') :: r =>
      if K_dec k k' then (k, v) :: r else (k', v') :: set k v r
  end.

(** [d.values()] and [d.keys()], in insertion order. *)
Definition values (d : t) : list V := map snd d.
Definition keys (d : t) : list K := map fst d.

(** [not d] *)
Definition is_empty (d : t) : bool :=
  match d with [] => true | _ => false end.
End Dict.
End Dict.

(* ------------------------------------------------------------------ *)
(** ** [datetime.date], [datetime.time] and their text forms *)

Module datetime.

(** [date(year, month, day)] *)
Record date := mk_date { year : Z; month : Z; day : Z }.

(** [time(hour, minute)]; [pedir_hora] parses ["%H:%M"], so seconds and
    microseconds are always zero and are left out. *)
Record time := mk_time { hour : Z; minute : Z }.

Definition is_leap (y : Z) : bool :=
  (y mod 4 =? 0) && negb (y mod 100 =? 0) || (y mod 400 =? 0).

Definition days_in_month (y m : Z) : Z :=
  if m =? 2 then (if is_leap y then 29 else 28)
  else if (m =? 4) || (m =? 6) || (m =? 9) || (m =? 11) then 30
  else 31.

(** The values the constructor of [date] accepts (MINYEAR = 1,
    MAXYEAR = 9999). *)
Definition date_valid (d : date) : bool :=
  (1 <=? year d) && (year d <=? 9999) &&
  (1 <=? month d) && (month d <=? 12) &&
  (1 <=? day d) && (day d <=? days_in_month (year d) (month d)).

(** The values the constructor of [time] accepts. *)
Definition time_valid (t : time) : bool :=
  (0 <=? hour t) && (hour t <? 24) && (0 <=? minute t) && (minute t <? 60).

(** The decimal digit of [n] in the units place, as a character. *)
Definition digit (n : Z) : ascii := ascii_of_nat (Z.to_nat (48 + n mod 10)).

(** ["%02d"] and ["%04d"] on the ranges that [date] and [time] allow
    (0 to 99 and 0 to 9999). *)
Definition fmt02 (n : Z) : string :=
  String (digit (n / 10)) (String (digit n) "").

Definition fmt04 (n : Z) : string :=
  String (digit (n / 1000)) (String (digit (n / 100)) (fmt02 n)).

(** [d.isoformat()], i.e. YYYY-MM-DD *)
Definition isoformat (d : date) : string :=
  fmt04 (year d) ++ "-" ++ fmt02 (month d) ++ "-" ++ fmt02 (day d).

(** [t.strftime("%H:%M")] *)
Definition strftime_HM (t : time) : string :=
  fmt02 (hour t) ++ ":" ++ fmt02 (minute t).

End datetime.
Import datetime.

(* ------------------------------------------------------------------ *)
(** ** [str(int)] *)

(** [str(z)] for an [int]: decimal digits, with a leading minus sign for
    negative numbers. *)
Definition py_str (z : Z) : string := NilZero.string_of_int (Z.to_int z).

(* ------------------------------------------------------------------ *)
(** ** Data model *)

(** [@dataclass class Cliente] *)
Record Cliente := mk_Cliente {
  dni : string;
  nombre : string;
  telefono : string
}.

(** [@dataclass class Turno]; [fecha] is YYYY-MM-DD, [hora] is HH:MM and
    [estado] is ["ACTIVO"] or ["CANCELADO"]. *)
Record Turno := mk_Turno {
  id_turno : Z;
  dni_cliente : string;
  fecha : string;
  hora : string;
  servicio : string;
  estado : string
}.

Definition ACTIVO : string := "ACTIVO".
Definition CANCELADO : string := "CANCELADO".

(** The attributes of a [Peluqueria] instance. *)
Record Peluqueria := mk_Peluqueria {
  clientes : Dict.t (K:=string) (V:=Cliente);
  turnos : Dict.t (K:=Z) (V:=Turno);
  next_id : Z
}.

Definition get_cliente := Dict.get (V:=Cliente) string_dec.
Definition set_cliente := Dict.set (V:=Cliente) string_dec.
Definition get_turno := Dict.get (V:=Turno) Z.eq_dec.
Definition set_turno := Dict.set (V:=Turno) Z.eq_dec.

(** Attribute assignments on a [Turno] object. *)
Definition con_slot (f h : string) (t : Turno) : Turno :=
  mk_Turno (id_turno t) (dni_cliente t) f h (servicio t) (estado t).
Definition con_servicio (s : string) (t : Turno) : Turno :=
  mk_Turno (id_turno t) (dni_cliente t) (fecha t) (hora t) s (estado t).
Definition con_estado (e : string) (t : Turno) : Turno :=
  mk_Turno (id_turno t) (dni_cliente t) (fecha t) (hora t) (servicio t) e.

(* ------------------------------------------------------------------ *)
(** ** The CSV files *)

Definition fila := list string.
Definition archivo := list fila.

(** The two files of the working directory; [None] is a file that does
    not exist ([os.path.exists] is false). *)
Record Disco := mk_Disco {
  CLIENTES_FILE : option archivo;
  TURNOS_FILE : option archivo
}.

Definition disco_vacio : Disco := mk_Disco None None.

(** What can stop [cargar_datos]. *)
Inductive error_carga :=
| KeyError (columna : string)    (* row[columna], column not in the header *)
| ValueError (texto : string)    (* int(texto) *)
| TypeError (columna : string).  (* int(None): the row ends before id_turno *)

Inductive resultado (A : Type) :=
| Ok (a : A)
| Error (e : error_carga).
Arguments Ok {A} a.
Arguments Error {A} e.

Definition bind {A B} (r : resultado A) (k : A -> resultado B) : resultado B :=
  match r with
  | Ok a => k a
  | Error e => Error e
  end.

Notation "x <- r ;; k" := (bind r (fun x => k))
  (at level 61, r at next level, right associativity).

(** One row of [csv.DictReader]: [dict(zip(fieldnames, row))], then [None]
    under every field name that the row is too short for.  (The surplus of
    a long row goes under the key [None], which no lookup here uses.) *)
Definition fila_dict (fieldnames row : fila) : Dict.t (K:=string) (V:=option string) :=
  let d := fold_left (fun d kv => Dict.set string_dec (fst kv) (Some (snd kv)) d)
                     (combine fieldnames row) Dict.empty in
  fold_left (fun d k => Dict.set string_dec k None d)
            (skipn (List.length row) fieldnames) d.

Definition fila_vacia (r : fila) : bool :=
  match r with [] => true | _ => false end.

(** [csv.DictReader(f)]: the first row names the fields, empty rows are
    skipped. *)
Definition DictReader (f : archivo) : list (Dict.t (K:=string) (V:=option string)) :=
  match f with
  | [] => []
  | fieldnames :: filas =>
      map (fila_dict fieldnames) (filter (fun r => negb (fila_vacia r)) filas)
  end.

(** The dataclasses as Python holds them.  The annotations are not checked:
    a field declared [str] holds the text of the row, or [None] when the
    row ended before its column. *)
Record ClientePy := mk_ClientePy {
  py_dni : option string;
  py_nombre : option string;
  py_telefono : option string
}.

Record TurnoPy := mk_TurnoPy {
  py_id_turno : Z;
  py_dni_cliente : option string;
  py_fecha : option string;
  py_hora : option string;
  py_servicio : option string;
  py_estado : option string
}.

(** The attributes of a [Peluqueria] instance as [cargar_datos] fills them;
    the key of a client is its [dni], which may be [None]. *)
Record PeluqueriaPy := mk_PeluqueriaPy {
  py_clientes : Dict.t (K:=option string) (V:=ClientePy);
  py_turnos : Dict.t (K:=Z) (V:=TurnoPy);
  py_next_id : Z
}.

Definition clave_dec (a b : option string) : {a = b} + {a <> b}.
Proof. decide equality. apply string_dec. Defined.


(** A record whose fields all hold text, seen as Python holds it. *)
Definition crudo_cliente (c : Cliente) : ClientePy :=
  mk_ClientePy (Some (dni c)) (Some (nombre c)) (Some (telefono c)).

Definition crudo_turno (t : Turno) : TurnoPy :=
  mk_TurnoPy (id_turno t) (Some (dni_cliente t)) (Some (fecha t))
             (Some (hora t)) (Some (servicio t)) (Some (estado t)).

Definition crudo_clientes (cs : Dict.t (K:=string) (V:=Cliente))
  : Dict.t (K:=option string) (V:=ClientePy) :=
  map (fun kv => (Some (fst kv), crudo_cliente (snd kv))) cs.

Definition crudo_turnos (ts : Dict.t (K:=Z) (V:=Turno))
  : Dict.t (K:=Z) (V:=TurnoPy) :=
  map (fun kv => (fst kv, crudo_turno (snd kv))) ts.

Definition crudo (self : Peluqueria) : PeluqueriaPy :=
  mk_PeluqueriaPy (crudo_clientes (clientes self))
                  (crudo_turnos (turnos self)) (next_id self).

Section Carga.

(** [int(s)] for a [str]; [None] is [ValueError]. *)
Variable py_int : string -> option Z.

(** [row[c]] *)
Definition campo (row : Dict.t (K:=string) (V:=option string)) (c : string)
  : resultado (option string) :=
  match Dict.get string_dec c row with
  | None => Error (KeyError c)
  | Some v => Ok v
  end.

(** [int(row[c])] *)
Definition campo_int (row : Dict.t (K:=string) (V:=option string)) (c : string)
  : resultado Z :=
  match Dict.get string_dec c row with
  | None => Error (KeyError c)
  | Some None => Error (TypeError c)
  | Some (Some v) =>
      match py_int v with
      | Some z => Ok z
      | None => Error (ValueError v)
      end
  end.

(** [row.get(c, defecto)] *)
Definition campo_o (row : Dict.t (K:=string) (V:=option string))
  (c defecto : string) : option string :=
  match Dict.get string_dec c row with
  | None => Some defecto
  | Some v => v
  end.

Definition leer_cliente (row : Dict.t (K:=string) (V:=option string))
  : resultado ClientePy :=
  d <- campo row "dni";;
  n <- campo row "nombre";;
  t <- campo row "telefono";;
  Ok (mk_ClientePy d n t).

Definition leer_turno (row : Dict.t (K:=string) (V:=option string))
  : resultado TurnoPy :=
  i <- campo_int row "id_turno";;
  d <- campo row "dni_cliente";;
  f <- campo row "fecha";;
  h <- campo row "hora";;
  s <- campo row "servicio";;
  Ok (mk_TurnoPy i d f h s (campo_o row "estado" ACTIVO)).

(** The loop over the rows of [clientes.csv]. *)
Fixpoint cargar_clientes (rows : list (Dict.t (K:=string) (V:=option string)))
  (cs : Dict.t (K:=option string) (V:=ClientePy))
  : resultado (Dict.t (K:=option string) (V:=ClientePy)) :=
  match rows with
  | [] => Ok cs
  | row :: rest =>
      cliente <- leer_cliente row;;
      cargar_clientes rest (Dict.set clave_dec (py_dni cliente) cliente cs)
  end.

(** The loop over the rows of [turnos.csv], with its running [max_id]. *)
Fixpoint cargar_turnos (rows : list (Dict.t (K:=string) (V:=option string)))
  (ts : Dict.t (K:=Z) (V:=TurnoPy)) (max_id : Z)
  : resultado (Dict.t (K:=Z) (V:=TurnoPy) * Z) :=
  match rows with
  | [] => Ok (ts, max_id)
  | row :: rest =>
      turno <- leer_turno row;;
      cargar_turnos rest (Dict.set Z.eq_dec (py_id_turno turno) turno ts)
        (if py_id_turno turno >? max_id then py_id_turno turno else max_id)
  end.

(** [Peluqueria.cargar_datos] *)
Definition cargar_datos (d : Disco) (self : PeluqueriaPy)
  : resultado PeluqueriaPy :=
  cs <- match CLIENTES_FILE d with
        | Some f => cargar_clientes (DictReader f) (py_clientes self)
        | None => Ok (py_clientes self)
        end;;
  match TURNOS_FILE d with
  | Some f =>
      r <- cargar_turnos (DictReader f) (py_turnos self) 0;;
      Ok (mk_PeluqueriaPy cs (fst r) (snd r + 1))
  | None => Ok (mk_PeluqueriaPy cs (py_turnos self) (py_next_id self))
  end.

(** [Peluqueria.__init__] *)
Definition Peluqueria_init (d : Disco) : resultado PeluqueriaPy :=
  cargar_datos d (mk_PeluqueriaPy Dict.empty Dict.empty 1).


End Carga.

Definition fieldnames_clientes : fila := ["dni"; "nombre"; "telefono"].
Definition fieldnames_turnos : fila :=
  ["id_turno"; "dni_cliente"; "fecha"; "hora"; "servicio"; "estado"].

(** [writer.writerow(asdict(cliente))] and [writer.writerow(asdict(turno))]:
    the values in the order of the field names, the [int] through [str]. *)
Definition fila_cliente (c : Cliente) : fila := [dni c; nombre c; telefono c].
Definition fila_turno (t : Turno) : fila :=
  [py_str (id_turno t); dni_cliente t; fecha t; hora t; servicio t; estado t].

(** The files that [Peluqueria.guardar_datos] writes. *)
Definition archivos_de (self : Peluqueria) : Disco :=
  mk_Disco
    (Some (fieldnames_clientes :: map fila_cliente (Dict.values (clientes self))))
    (Some (fieldnames_turnos :: map fila_turno (Dict.values (turnos self)))).

(** [csv.writer] writes [None] as an empty field. *)
Definition csv_texto (v : option string) : string :=
  match v with
  | Some s => s
  | None => ""
  end.

Definition fila_cliente_py (c : ClientePy) : fila :=
  [csv_texto (py_dni c); csv_texto (py_nombre c); csv_texto (py_telefono c)].
Definition fila_turno_py (t : TurnoPy) : fila :=
  [py_str (py_id_turno t); csv_texto (py_dni_cliente t); csv_texto (py_fecha t);
   csv_texto (py_hora t); csv_texto (py_servicio t); csv_texto (py_estado t)].

(** The files that [Peluqueria.guardar_datos] writes from an instance as
    Python holds it. *)
Definition archivos_de_py (self : PeluqueriaPy) : Disco :=
  mk_Disco
    (Some (fieldnames_clientes
           :: map fila_cliente_py (Dict.values (py_clientes self))))
    (Some (fieldnames_turnos
           :: map fila_turno_py (Dict.values (py_turnos self)))).

(* ------------------------------------------------------------------ *)
(** ** The running program *)

(** The instance, the files, and how many times [guardar_datos] has run. *)
Record Mundo := mk_Mundo {
  sistema : Peluqueria;
  disco : Disco;
  guardados : nat
}.

(** [Peluqueria.guardar_datos]: both files are rewritten from the dicts. *)
Definition guardar_datos (self : Peluqueria) (m : Mundo) : Mundo :=
  mk_Mundo self (archivos_de self) (S (guardados m)).

(** The line an operation prints before it returns. *)
Inductive Mensaje :=
| ClienteYaExiste            (* Ya existe un cliente con ese DNI. *)
| ClienteRegistrado          (* Cliente registrado con exito. *)
| SinClientes                (* No hay clientes cargados. Primero registre un cliente. *)
| ClienteInexistente         (* No existe un cliente con ese DNI. *)
| TurnoOcupado               (* Ya existe un turno activo en esa fecha y hora. *)
| TurnoRegistrado (id : Z)   (* Turno registrado con ID {id}. *)
| SinTurnos                  (* No hay turnos cargados. *)
| SinCoincidencias           (* No se encontraron turnos con ese criterio. *)
| Listado (ts : list Turno)  (* one line per appointment *)
| IdInvalido                 (* ID invalido. *)
| TurnoInexistente           (* No existe un turno con ese ID. *)
| OpcionNoValida             (* Opcion no valida. *)
| TurnoActualizado           (* Turno actualizado. *)
| DatosGuardados             (* Datos guardados en CSV. *)
| Saliendo.                  (* Saliendo del sistema... *)

(** [Peluqueria.turno_ocupado] *)
Definition turno_ocupado (self : Peluqueria) (f : date) (h : time) : bool :=
  existsb (fun turno =>
             (estado turno =? ACTIVO)%string
             && (fecha turno =? isoformat f)%string
             && (hora turno =? strftime_HM h)%string)
          (Dict.values (turnos self)).

(** [Peluqueria.registrar_cliente] *)
Definition registrar_cliente (dni nombre telefono : string) (m : Mundo)
  : Mundo * Mensaje :=
  let self := sistema m in
  if Dict.mem string_dec dni (clientes self) then (m, ClienteYaExiste)
  else
    let cliente := mk_Cliente dni nombre telefono in
    let self' := mk_Peluqueria (set_cliente dni cliente (clientes self))
                               (turnos self) (next_id self) in
    (guardar_datos self' m, ClienteRegistrado).

(** [Peluqueria.solicitar_turno] *)
Definition solicitar_turno (dni : string) (f : date) (h : time)
  (servicio : string) (m : Mundo) : Mundo * Mensaje :=
  let self := sistema m in
  if Dict.is_empty (clientes self) then (m, SinClientes)
  else if negb (Dict.mem string_dec dni (clientes self)) then (m, ClienteInexistente)
  else if turno_ocupado self f h then (m, TurnoOcupado)
  else
    let turno := mk_Turno (next_id self) dni (isoformat f) (strftime_HM h)
                          servicio ACTIVO in
    let self' := mk_Peluqueria (clientes self)
                               (set_turno (id_turno turno) turno (turnos self))
                               (next_id self + 1) in
    (guardar_datos self' m, TurnoRegistrado (id_turno turno)).

(** The three filters of [listar_turnos]; any answer other than 2 or 3
    lists everything. *)
Inductive Filtro :=
| Todos
| PorDni (dni : string)
| PorFecha (f : date).

(** [(a.fecha, a.hora) < (b.fecha, b.hora)] on tuples of [str]. *)
Definition clave_lt (a b : Turno) : bool :=
  if (fecha a =? fecha b)%string then String.ltb (hora a) (hora b)
  else String.ltb (fecha a) (fecha b).


(** [list.sort(key=...)] is a stable sort: an element moves in front of
    another only when its key is strictly smaller. *)
Fixpoint insertar (x : Turno) (l : list Turno) : list Turno :=
  match l with
  | [] => [x]
  | y :: r => if clave_lt y x then y :: insertar x r else x :: y :: r
  end.

Definition ordenar (l : list Turno) : list Turno := fold_right insertar [] l.

Definition filtrar (flt : Filtro) (l : list Turno) : list Turno :=
  match flt with
  | Todos => l
  | PorDni d => filter (fun t => (dni_cliente t =? d)%string) l
  | PorFecha f => filter (fun t => (fecha t =? isoformat f)%string) l
  end.

(** [Peluqueria.listar_turnos]: the appointments it prints, in order. *)
Definition listar_turnos (flt : Filtro) (self : Peluqueria) : Mensaje :=
  if Dict.is_empty (turnos self) then SinTurnos
  else
    match filtrar flt (Dict.values (turnos self)) with
    | [] => SinCoincidencias
    | turnos_a_mostrar => Listado (ordenar turnos_a_mostrar)
    end.


(** The choices of [modificar_o_cancelar_turno], with the answers that each
    one asks for. *)
Inductive Opcion :=
| ModificarFechaHora (f : date) (h : time)   (* 1 *)
| ModificarServicio (s : string)             (* 2 *)
| CancelarTurno                              (* 3 *)
| OtraOpcion.

(** [Peluqueria.modificar_o_cancelar_turno]; [id] is what [int(input(...))]
    gave for the identifier typed, [None] when it raised [ValueError].  The
    [Turno] object found under the key is the one stored in the dict, so
    assigning to its attributes updates the entry in place. *)
Definition modificar_o_cancelar_turno (id : option Z) (op : Opcion)
  (m : Mundo) : Mundo * Mensaje :=
  let self := sistema m in
  if Dict.is_empty (turnos self) then (m, SinTurnos)
  else
    match id with
    | None => (m, IdInvalido)
    | Some id =>
        match get_turno id (turnos self) with
        | None => (m, TurnoInexistente)
        | Some turno =>
            let actualizar (turno' : Turno) :=
              let self' := mk_Peluqueria (clientes self)
                             (set_turno id turno' (turnos self))
                             (next_id self) in
              (guardar_datos self' m, TurnoActualizado) in
            match op with
            | ModificarFechaHora f h =>
                if turno_ocupado self f h then (m, TurnoOcupado)
                else actualizar (con_slot (isoformat f) (strftime_HM h) turno)
            | ModificarServicio s => actualizar (con_servicio s turno)
            | CancelarTurno => actualizar (con_estado CANCELADO turno)
            | OtraOpcion => (m, OpcionNoValida)
            end
        end
    end.

(** One round of the menu of [Peluqueria.ejecutar]. *)
Inductive Entrada :=
| Registrar (dni nombre telefono : string)                      (* 1 *)
| Solicitar (dni : string) (f : date) (h : time) (s : string)    (* 2 *)
| Listar (flt : Filtro)                                          (* 3 *)
| Modificar (id : option Z) (op : Opcion)                        (* 4 *)
| Guardar                                                        (* 5 *)
| Otra.

Definition ejecutar_opcion (e : Entrada) (m : Mundo) : Mundo * Mensaje :=
  match e with
  | Registrar d n t => registrar_cliente d n t m
  | Solicitar d f h s => solicitar_turno d f h s m
  | Listar flt => (m, listar_turnos flt (sistema m))
  | Modificar i op => modificar_o_cancelar_turno i op m
  | Guardar => (guardar_datos (sistema m) m, DatosGuardados)
  | Otra => (m, OpcionNoValida)
  end.

(** The menu loop over a finite run of rounds: the final state and what
    each round printed. *)
Fixpoint ejecutar (es : list Entrada) (m : Mundo) : Mundo * list Mensaje :=
  match es with
  | [] => (m, [])
  | e :: rest =>
      let (m1, msg) := ejecutar_opcion e m in
      let (m2, msgs) := ejecutar rest m1 in
      (m2, msg :: msgs)
  end.

(** The program started in a directory without CSV files. *)
Definition sistema_vacio : Peluqueria := mk_Peluqueria Dict.empty Dict.empty 1.
Definition mundo_inicial : Mundo := mk_Mundo sistema_vacio disco_vacio 0.

(** The messages that report a refused operation. *)
Definition es_fallo (msg : Mensaje) : bool :=
  match msg with
  | ClienteYaExiste | SinClientes | ClienteInexistente | TurnoOcupado
  | SinTurnos | IdInvalido | TurnoInexistente | OpcionNoValida => true
  | _ => false
  end.

(** An active appointment in the slot written [f], [h]. *)
Definition activo_en (f h : string) (t : Turno) : bool :=
  (estado t =? ACTIVO)%string && (fecha t =? f)%string && (hora t =? h)%string.

(** How many active appointments the store holds in a slot. *)
Definition activos_en (f h : string) (self : Peluqueria) : nat :=
  List.length (filter (activo_en f h) (Dict.values (turnos self))).

(** No two active appointments share a slot. *)
Definition sin_superposicion (self : Peluqueria) : Prop :=
  forall f h : string, (activos_en f h self <= 1)%nat.

Definition b2n (b : bool) : nat := if b then 1%nat else 0%nat.

(** Both dicts are keyed by the identifier that the record itself carries,
    each key once. *)
Definition bien_formado (self : Peluqueria) : Prop :=
  NoDup (Dict.keys (clientes self)) /\
  Forall (fun kv => fst kv = dni (snd kv)) (clientes self) /\
  NoDup (Dict.keys (turnos self)) /\
  Forall (fun kv => fst kv = id_turno (snd kv)) (turnos self).

(** The largest of 0 and the numbers of a list. *)
Definition max0 (l : list Z) : Z := fold_right Z.max 0 l.

(** A booking request: the answers given to [solicitar_turno]. *)
Record Pedido := mk_Pedido {
  p_dni : string;
  p_fecha : date;
  p_hora : time;
  p_servicio : string
}.

Definition solicitar (p : Pedido) : Entrada :=
  Solicitar (p_dni p) (p_fecha p) (p_hora p) (p_servicio p).

(** The identifiers [n], [n+1], ... ([k] of them). *)
Fixpoint ids_desde (n : Z) (k : nat) : list Z :=
  match k with
  | O => []
  | S k' => n :: ids_desde (n + 1) k'
  end.

(** Sample data for the closed instances below.  [ej_int] stands for
    [int] there: on a plain decimal numeral ("12", "-3") it gives the
    number, as [int] does, and on text without a digit it gives [None],
    where [int] raises [ValueError]; the instances apply it to no other
    text. *)
Definition ej_int (s : string) : option Z :=
  option_map Z.of_int (NilZero.int_of_string s).
Definition ej_fecha : date := mk_date 2024 5 1.
Definition ej_hora : time := mk_time 10 0.
Definition ej_mundo1 : Mundo :=
  fst (ejecutar [Registrar "123" "Ana" "555"] mundo_inicial).
Definition ej_mundo2 : Mundo :=
  fst (ejecutar [Solicitar "123" ej_fecha ej_hora "cut"] ej_mundo1).
Definition ej_mundo3 : Mundo :=
  fst (ejecutar [Modificar (Some 1) CancelarTurno] ej_mundo2).
Definition ej_pedidos : list Pedido :=
  [mk_Pedido "123" ej_fecha ej_hora "cut";
   mk_Pedido "123" ej_fecha (mk_time 10 30) "color";
   mk_Pedido "123" (mk_date 2024 5 2) ej_hora "cut"].


(** Both dicts of an instance as Python holds it are keyed by the
    identifier that the record itself carries, each key once. *)
Definition bien_formado_py (self : PeluqueriaPy) : Prop :=
  NoDup (Dict.keys (py_clientes self)) /\
  Forall (fun kv => fst kv = py_dni (snd kv)) (py_clientes self) /\
  NoDup (Dict.keys (py_turnos self)) /\
  Forall (fun kv => fst kv = py_id_turno (snd kv)) (py_turnos self).

(** The appointment that an accepted request stores under the identifier
    [id], and the appointments stored by a run of accepted requests that
    starts with the counter at [n]. *)
Definition turno_de (id : Z) (p : Pedido) : Turno :=
  mk_Turno id (p_dni p) (isoformat (p_fecha p)) (strftime_HM (p_hora p))
           (p_servicio p) ACTIVO.

Fixpoint turnos_desde (n : Z) (ps : list Pedido) : Dict.t (K:=Z) (V:=Turno) :=
  match ps with
  | [] => []
  | p :: r => (n, turno_de n p) :: turnos_desde (n + 1) r
  end.

(** A client file whose only row ends after the DNI, and the instance that
    loads from it. *)
Definition ej_clientes_corto : archivo := [fieldnames_clientes; ["123"]].
Definition ej_disco_corto : Disco := mk_Disco (Some ej_clientes_corto) None.
Definition ej_sistema_corto : PeluqueriaPy :=
  mk_PeluqueriaPy [(Some "123", mk_ClientePy (Some "123") None None)] [] 1.

(** Files written by hand with two active appointments in one slot, and
    the program started on them. *)
Definition ej_turnos_doble : archivo :=
  [fieldnames_turnos;
   ["1"; "123"; "2024-05-01"; "10:00"; "cut"; "ACTIVO"];
   ["2"; "123"; "2024-05-01"; "10:00"; "color"; "ACTIVO"]].
Definition ej_disco_doble : Disco :=
  mk_Disco (Some [fieldnames_clientes; ["123"; "Ana"; "555"]])
           (Some ej_turnos_doble).
Definition ej_sistema_doble : Peluqueria :=
  mk_Peluqueria
    [("123", mk_Cliente "123" "Ana" "555")]
    [(1, mk_Turno 1 "123" "2024-05-01" "10:00" "cut" ACTIVO);
     (2, mk_Turno 2 "123" "2024-05-01" "10:00" "color" ACTIVO)]
    3.
Definition ej_mundo_doble : Mundo := mk_Mundo ej_sistema_doble ej_disco_doble 0.
(* ------------------------------------------------------------------ *)
(** ** What a round of the menu can do to the instance *)

(** The three assignments that [modificar_o_cancelar_turno] can make to
    the [Turno] it found. *)
Inductive cambio (self : Peluqueria) (turno : Turno) : Turno -> Prop :=
| c_slot (f : date) (h : time) :
    turno_ocupado self f h = false ->
    cambio self turno (con_slot (isoformat f) (strftime_HM h) turno)
| c_servicio (s : string) :
    cambio self turno (con_servicio s turno)
| c_cancelar :
    cambio self turno (con_estado CANCELADO turno).

(** The instance before and after a round of the menu that reaches
    [guardar_datos]: saving alone, a new client, a new appointment, or an
    assignment to a stored appointment. *)
Inductive transicion (self : Peluqueria) : Peluqueria -> Prop :=
| tr_guardar :
    transicion self self
| tr_registrar (d n t : string) :
    Dict.mem string_dec d (clientes self) = false ->
    transicion self
      (mk_Peluqueria (set_cliente d (mk_Cliente d n t) (clientes self))
                     (turnos self) (next_id self))
| tr_solicitar (d : string) (f : date) (h : time) (s : string) :
    Dict.mem string_dec d (clientes self) = true ->
    turno_ocupado self f h = false ->
    transicion self
      (mk_Peluqueria (clientes self)
         (set_turno (next_id self)
            (mk_Turno (next_id self) d (isoformat f) (strftime_HM h) s ACTIVO)
            (turnos self))
         (next_id self + 1))
| tr_modificar (id : Z) (turno turno' : Turno) :
    get_turno id (turnos self) = Some turno ->
    cambio self turno turno' ->
    transicion self
      (mk_Peluqueria (clientes self) (set_turno id turno' (turnos self))
                     (next_id self)).

(** Every stored identifier is below the counter. *)
Definition ids_frescos (self : Peluqueria) : Prop :=
  Forall (fun k => k < next_id self) (Dict.keys (turnos self)).

(** The counter is one more than the largest of 0 and the stored
    identifiers. *)
Definition contador_ajustado (self : Peluqueria) : Prop :=
  next_id self = 1 + max0 (Dict.keys (turnos self)).

(** The files on disk load to the instance in memory, whose dicts are keyed
    by the records' identifiers and whose counter is adjusted. *)
Definition recuperable (py_int : string -> option Z) (m : Mundo) : Prop :=
  bien_formado (sistema m) /\ contador_ajustado (sistema m) /\
  Peluqueria_init py_int (disco m) = Ok (crudo (sistema m)).

(** The client name that [listar_turnos] prints on the line of an
    appointment: [cliente.nombre if cliente else "Desconocido"]. *)
Definition nombre_mostrado (self : Peluqueria) (t : Turno) : string :=
  match get_cliente (dni_cliente t) (clientes self) with
  | Some cliente => nombre cliente
  | None => "Desconocido"
  end.

(** Every appointment belongs to a registered client. *)
Definition clientes_conocidos (self : Peluqueria) : Prop :=
  Forall (fun t => Dict.mem string_dec (dni_cliente t) (clientes self) = true)
         (Dict.values (turnos self)).

(** The identifiers that the accepted bookings of a run reported. *)
Definition registrados (msgs : list Mensaje) : list Z :=
  flat_map (fun msg => match msg with
                       | TurnoRegistrado id => [id]
                       | _ => []
                       end) msgs.

(** [l1] is an initial part of [l2]. *)
Definition prefijo {A} (l1 l2 : list A) : Prop := exists r, l2 = (l1 ++ r)%list.


Definition ej_turnos_sin_estado : archivo :=
  [["id_turno"; "dni_cliente"; "fecha"; "hora"; "servicio"];
   ["4"; "123"; "2024-05-01"; "10:00"; "cut"]].

(* ------------------------------------------------------------------ *)
(** ** The program at the keyboard *)

(** The operations above receive their answers as arguments.  Here they
    are as the source has them, reading each answer with [input()] when it
    is needed.  The lines still to be typed are a list; [None] is the
    [EOFError] that [input()] raises when they run out, which nothing
    catches.  Of what is printed, the line that reports the outcome of a
    round is kept; menus, headings, prompts and the notices of
    [pedir_fecha] and [pedir_hora] are not. *)
Definition Lector (A : Type) : Type := list string -> option (A * list string).

Definition ret {A} (a : A) : Lector A := fun ls => Some (a, ls).

Definition ligar {A B} (r : Lector A) (k : A -> Lector B) : Lector B :=
  fun ls => match r ls with
            | Some (a, ls') => k a ls'
            | None => None
            end.

Notation "x <~ r ;; k" := (ligar r (fun x => k))
  (at level 61, r at next level, right associativity).

(** [input(...)] *)
Definition input : Lector string :=
  fun ls => match ls with
            | [] => None
            | l :: r => Some (l, r)
            end.

(** The loop shared by [pedir_fecha] and [pedir_hora]: ask again until the
    line parses (each rejected line prints the "invalid" notice). *)
Fixpoint pedir {A} (strptime : string -> option A) (ls : list string)
  : option (A * list string) :=
  match ls with
  | [] => None
  | l :: r =>
      match strptime l with
      | Some a => Some (a, r)
      | None => pedir strptime r
      end
  end.

(** How a session ends: option 6 (with the lines never read), the end of
    the input, or the step bound of [ejecutar_io]. *)
Inductive Final :=
| Salio (resto : list string)
| FinEntrada
| SinPasos.

Section Consola.

(** [datetime.strptime(s, "%d/%m/%Y").date()] and
    [datetime.strptime(s, "%H:%M").time()]; [None] is [ValueError]. *)
Variable strptime_fecha : string -> option date.
Variable strptime_hora : string -> option time.

(** [int(s)], where [None] is [ValueError], and [s.strip()]. *)
Variable py_int : string -> option Z.
Variable strip : string -> string.

(** [Peluqueria.pedir_fecha] and [Peluqueria.pedir_hora] *)
Definition pedir_fecha : Lector date := pedir strptime_fecha.
Definition pedir_hora : Lector time := pedir strptime_hora.

(** [Peluqueria.registrar_cliente], with its [input()] calls. *)
Definition registrar_cliente_io (m : Mundo) : Lector (Mundo * Mensaje) :=
  let self := sistema m in
  dni <~ input;;
  let dni := strip dni in
  if Dict.mem string_dec dni (clientes self) then ret (m, ClienteYaExiste)
  else
    nombre <~ input;;
    let nombre := strip nombre in
    telefono <~ input;;
    let telefono := strip telefono in
    let cliente := mk_Cliente dni nombre telefono in
    let self' := mk_Peluqueria (set_cliente dni cliente (clientes self))
                               (turnos self) (next_id self) in
    ret (guardar_datos self' m, ClienteRegistrado).

(** [Peluqueria.solicitar_turno], with its [input()] calls. *)
Definition solicitar_turno_io (m : Mundo) : Lector (Mundo * Mensaje) :=
  let self := sistema m in
  if Dict.is_empty (clientes self) then ret (m, SinClientes)
  else
    dni <~ input;;
    let dni := strip dni in
    if negb (Dict.mem string_dec dni (clientes self))
    then ret (m, ClienteInexistente)
    else
      fecha <~ pedir_fecha;;
      hora <~ pedir_hora;;
      if turno_ocupado self fecha hora then ret (m, TurnoOcupado)
      else
        servicio <~ input;;
        let servicio := strip servicio in
        let turno := mk_Turno (next_id self) dni (isoformat fecha)
                              (strftime_HM hora) servicio ACTIVO in
        let self' := mk_Peluqueria (clientes self)
                       (set_turno (id_turno turno) turno (turnos self))
                       (next_id self + 1) in
        ret (guardar_datos self' m, TurnoRegistrado (id_turno turno)).

(** [Peluqueria.listar_turnos], with its [input()] calls. *)
Definition listar_turnos_io (self : Peluqueria) : Lector Mensaje :=
  if Dict.is_empty (turnos self) then ret SinTurnos
  else
    opcion <~ input;;
    let opcion := strip opcion in
    let turnos_a_mostrar := Dict.values (turnos self) in
    turnos_a_mostrar <~
      (if (opcion =? "2")%string then
         dni <~ input;;
         let dni := strip dni in
         ret (filter (fun t => (dni_cliente t =? dni)%string) turnos_a_mostrar)
       else if (opcion =? "3")%string then
         f <~ pedir_fecha;;
         let f := isoformat f in
         ret (filter (fun t => (fecha t =? f)%string) turnos_a_mostrar)
       else ret turnos_a_mostrar);;
    match turnos_a_mostrar with
    | [] => ret SinCoincidencias
    | _ => ret (Listado (ordenar turnos_a_mostrar))
    end.

(** [Peluqueria.modificar_o_cancelar_turno], with its [input()] calls. *)
Definition modificar_o_cancelar_turno_io (m : Mundo)
  : Lector (Mundo * Mensaje) :=
  let self := sistema m in
  if Dict.is_empty (turnos self) then ret (m, SinTurnos)
  else
    id_turno <~ input;;
    match py_int id_turno with
    | None => ret (m, IdInvalido)
    | Some id =>
        match get_turno id (turnos self) with
        | None => ret (m, TurnoInexistente)
        | Some turno =>
            let actualizar (turno' : Turno) : Lector (Mundo * Mensaje) :=
              let self' := mk_Peluqueria (clientes self)
                             (set_turno id turno' (turnos self))
                             (next_id self) in
              ret (guardar_datos self' m, TurnoActualizado) in
            opcion <~ input;;
            let opcion := strip opcion in
            if (opcion =? "1")%string then
              fecha <~ pedir_fecha;;
              hora <~ pedir_hora;;
              if turno_ocupado self fecha hora then ret (m, TurnoOcupado)
              else actualizar (con_slot (isoformat fecha) (strftime_HM hora)
                                        turno)
            else if (opcion =? "2")%string then
              servicio <~ input;;
              actualizar (con_servicio (strip servicio) turno)
            else if (opcion =? "3")%string then
              actualizar (con_estado CANCELADO turno)
            else ret (m, OpcionNoValida)
        end
    end.

(** The body of the menu loop for a choice other than 6. *)
Definition menu_io (opcion : string) (m : Mundo) : Lector (Mundo * Mensaje) :=
  if (opcion =? "1")%string then registrar_cliente_io m
  else if (opcion =? "2")%string then solicitar_turno_io m
  else if (opcion =? "3")%string then
    msg <~ listar_turnos_io (sistema m);; ret (m, msg)
  else if (opcion =? "4")%string then modificar_o_cancelar_turno_io m
  else if (opcion =? "5")%string then
    ret (guardar_datos (sistema m) m, DatosGuardados)
  else ret (m, OpcionNoValida).

(** [Peluqueria.ejecutar]: the menu loop, for at most [n] rounds.  It gives
    the state it stopped in, the outcome lines in order, and how it
    stopped. *)
Fixpoint ejecutar_io (n : nat) (m : Mundo) (ls : list string)
  : Mundo * list Mensaje * Final :=
  match n with
  | O => (m, [], SinPasos)
  | S n' =>
      match input ls with
      | None => (m, [], FinEntrada)
      | Some (opcion, ls1) =>
          let opcion := strip opcion in
          if (opcion =? "6")%string then (m, [Saliendo], Salio ls1)
          else
            match menu_io opcion m ls1 with
            | None => (m, [], FinEntrada)
            | Some ((m', msg), ls2) =>
                let '(mf, msgs, fin) := ejecutar_io n' m' ls2 in
                (mf, msg :: msgs, fin)
            end
      end
  end.

(** The script after [sistema = Peluqueria()] has built the instance
    [self] from the files [d]: [sistema.ejecutar()] with the lines [ls]
    typed.  Every round reads at least one line, so one more round than
    there are lines is enough. *)
Definition main (self : Peluqueria) (d : Disco) (ls : list string)
  : Mundo * list Mensaje * Final :=
  ejecutar_io (S (List.length ls)) (mk_Mundo self d 0) ls.

End Consola.

(** A reader only consumes: what it leaves is no longer than what it got. *)
Definition consume {A} (c : Lector A) : Prop :=
  forall ls a r, c ls = Some (a, r) -> (List.length r <= List.length ls)%nat.


(** A sample session.  The sample parsers read the one date and the one
    time that the instances below type in; [ej_strip] drops the spaces at
    both ends, which is what [str.strip] does to text with no other white
    space. *)
Definition ej_strptime_fecha (s : string) : option date :=
  if (s =? "01/05/2024")%string then Some ej_fecha else None.
Definition ej_strptime_hora (s : string) : option time :=
  if (s =? "10:00")%string then Some ej_hora else None.
Fixpoint ej_lstrip (s : string) : string :=
  match s with
  | String " " r => ej_lstrip r
  | _ => s
  end.
Fixpoint ej_rstrip (s : string) : string :=
  match s with
  | String c r =>
      match ej_rstrip r with
      | EmptyString => if (c =? " ")%char then EmptyString else String c EmptyString
      | r' => String c r'
      end
  | EmptyString => EmptyString
  end.
Definition ej_strip (s : string) : string := ej_rstrip (ej_lstrip s).
Definition ej_sesion : list string :=
  ["1"; " 123 "; "Ana"; "555"; "9"; " 2"; "123"; "01/05/2024"].
Definition ej_mundo_sesion : Mundo :=
  fst (fst (ejecutar_io ej_strptime_fecha ej_strptime_hora ej_int ej_strip 9
              mundo_inicial ej_sesion)).

(* ------------------------------------------------------------------ *)
(** * Properties *)

(** ** Dictionaries *)

Section DictFacts.
Context {K V : Type}.
Variable K_dec : forall a b : K, {a = b} + {a <> b}.

Abbreviation get := (Dict.get K_dec).
Abbreviation set := (Dict.set K_dec).

Lemma get_set_eq (k : K) (v : V) d : get k (set k v d) = Some v.
Proof.
  induction d as [|[k' v'] r IH]; simpl.
  - destruct (K_dec k k); congruence.
  - destruct (K_dec k k') as [E|N]; simpl.
    + destruct (K_dec k k); congruence.
    + destruct (K_dec k k'); congruence.
Qed.

Lemma get_set_neq (k k' : K) (v : V) d :
  k' <> k -> get k' (set k v d) = get k' d.
Proof.
  intros Hne. induction d as [|[k0 v0] r IH]; simpl.
  - destruct (K_dec k' k); congruence.
  - destruct (K_dec k k0) as [E|N]; simpl.
    + subst k0. destruct (K_dec k' k); congruence.
    + destruct (K_dec k' k0); congruence.
Qed.

Lemma get_In (k : K) (v : V) d : get k d = Some v -> In (k, v) d.
Proof.
  induction d as [|[k' v'] r IH]; simpl; [discriminate|].
  destruct (K_dec k k') as [E|N]; intros H.
  - left. congruence.
  - right. auto.
Qed.

Lemma get_In_values (k : K) (v : V) d :
  get k d = Some v -> In v (Dict.values d).
Proof.
  intros H. apply get_In in H. apply (in_map snd) in H. exact H.
Qed.

Lemma get_None_keys (k : K) (d : Dict.t (V:=V)) :
  get k d = None <-> ~ In k (Dict.keys d).
Proof.
  induction d as [|[k' v'] r IH]; simpl.
  - tauto.
  - destruct (K_dec k k') as [E|N].
    + split; [discriminate|]. intros H. exfalso. apply H. left. congruence.
    + rewrite IH. split; intros H; [intros [E|I]; [congruence|auto]|tauto].
Qed.

Lemma set_absent (k : K) (v : V) d :
  get k d = None -> set k v d = (d ++ [(k, v)])%list.
Proof.
  induction d as [|[k' v'] r IH]; simpl; [reflexivity|].
  destruct (K_dec k k'); [discriminate|].
  intros H. rewrite IH by exact H. reflexivity.
Qed.

Lemma set_fresh_app (k : K) (v : V) (d1 d2 : Dict.t) :
  NoDup (Dict.keys (d1 ++ (k, v) :: d2)%list) ->
  set k v d1 = (d1 ++ [(k, v)])%list.
Proof.
  intros Hnd. apply set_absent, get_None_keys.
  unfold Dict.keys in *. rewrite map_app in Hnd.
  apply NoDup_remove_2 in Hnd. intros Hin. apply Hnd.
  apply in_or_app. left. exact Hin.
Qed.

Lemma set_get_same (k : K) (v : V) d : get k d = Some v -> set k v d = d.
Proof.
  induction d as [|[k' v'] r IH]; simpl; [discriminate|].
  destruct (K_dec k k') as [E|N]; intros H.
  - congruence.
  - rewrite IH by exact H. reflexivity.
Qed.

Lemma keys_set_present (k : K) (v v0 : V) d :
  get k d = Some v0 -> Dict.keys (set k v d) = Dict.keys d.
Proof.
  induction d as [|[k' v'] r IH]; simpl; [discriminate|].
  destruct (K_dec k k') as [E|N]; intros H; simpl.
  - congruence.
  - f_equal. apply IH, H.
Qed.

Lemma mem_true_get (k : K) (d : Dict.t (V:=V)) :
  Dict.mem K_dec k d = true <-> exists v, get k d = Some v.
Proof.
  unfold Dict.mem. destruct (get k d) as [v|].
  - split; eauto.
  - split; [discriminate|]. intros [v H]. discriminate.
Qed.

Lemma mem_true_not_empty (k : K) (d : Dict.t (V:=V)) :
  Dict.mem K_dec k d = true -> Dict.is_empty d = false.
Proof. destruct d; [discriminate|reflexivity]. Qed.

(** Counting the values that satisfy a test, across an assignment. *)

Lemma count_set_le (P : V -> bool) (k : K) (v : V) d :
  (List.length (filter P (Dict.values (set k v d)))
   <= List.length (filter P (Dict.values d)) + b2n (P v))%nat.
Proof.
  induction d as [|[k' v'] r IH]; simpl.
  - destruct (P v); simpl; lia.
  - destruct (K_dec k k') as [E|N]; simpl.
    + destruct (P v), (P v'); simpl; lia.
    + destruct (P v'); simpl; fold (Dict.values (set k v r));
        fold (Dict.values r); lia.
Qed.

Lemma count_set_present (P : V -> bool) (k : K) (v v0 : V) d :
  get k d = Some v0 ->
  (List.length (filter P (Dict.values (set k v d))) + b2n (P v0)
   = List.length (filter P (Dict.values d)) + b2n (P v))%nat.
Proof.
  induction d as [|[k' v'] r IH]; simpl; [discriminate|].
  destruct (K_dec k k') as [E|N]; intros H; simpl.
  - injection H as H; subst v'. unfold Dict.values.
    destruct (P v), (P v0); simpl; lia.
  - specialize (IH H). unfold Dict.values in *.
    destruct (P v'); simpl; lia.
Qed.
End DictFacts.

Lemma existsb_false_count {A} (P : A -> bool) (l : list A) :
  existsb P l = false <-> List.length (filter P l) = 0%nat.
Proof.
  induction l as [|a l IH]; simpl; [tauto|].
  destruct (P a); simpl; [split; discriminate|exact IH].
Qed.

(** ** The slot test *)

Lemma turno_ocupado_activos (self : Peluqueria) (f : date) (h : time) :
  turno_ocupado self f h = false <->
  activos_en (isoformat f) (strftime_HM h) self = 0%nat.
Proof. apply existsb_false_count. Qed.

(** C7. [turno_ocupado fecha hora] answers [True] exactly when some stored
    appointment has [estado] ACTIVO, its [fecha] equal to the ISO text of
    the date and its [hora] equal to the HH:MM text of the time; nothing
    but equality of both texts is looked at. *)
Theorem turno_ocupado_iff (self : Peluqueria) (f : date) (h : time) :
  turno_ocupado self f h = true <->
  exists turno,
    In turno (Dict.values (turnos self)) /\
    estado turno = ACTIVO /\
    fecha turno = isoformat f /\
    hora turno = strftime_HM h.
Proof.
  unfold turno_ocupado. rewrite existsb_exists.
  split; intros [t [Hin H]]; exists t; split; trivial.
  - apply andb_prop in H as [H H3]. apply andb_prop in H as [H1 H2].
    rewrite String.eqb_eq in H1, H2, H3. auto.
  - destruct H as (H1 & H2 & H3).
    rewrite H1, H2, H3, !String.eqb_refl. reflexivity.
Qed.

(** ** Booking *)

Lemma self_eta (self : Peluqueria) :
  mk_Peluqueria (clientes self) (turnos self) (next_id self) = self.
Proof. destruct self; reflexivity. Qed.

Lemma solicitar_turno_ok (dni : string) (f : date) (h : time) (s : string)
  (m : Mundo) :
  Dict.mem string_dec dni (clientes (sistema m)) = true ->
  turno_ocupado (sistema m) f h = false ->
  snd (solicitar_turno dni f h s m) = TurnoRegistrado (next_id (sistema m)) /\
  get_turno (next_id (sistema m))
    (turnos (sistema (fst (solicitar_turno dni f h s m))))
  = Some (mk_Turno (next_id (sistema m)) dni (isoformat f) (strftime_HM h)
                   s ACTIVO).
Proof.
  intros Hm Ho. unfold solicitar_turno.
  rewrite (mem_true_not_empty _ _ _ Hm), Hm, Ho. simpl.
  split; [reflexivity|apply get_set_eq].
Qed.

(** C5. [solicitar_turno]: an unknown DNI is refused (with the message for
    an empty client table when there is no client at all); for a known DNI
    a slot held by an active appointment is refused; otherwise the
    appointment gets the current [next_id], the counter goes up by one, the
    appointment is stored under that identifier with the given client,
    date, time, service and estado ACTIVO, both files are rewritten, and
    the identifier is reported. *)
Theorem solicitar_turno_casos (dni : string) (f : date) (h : time)
  (s : string) (m : Mundo) :
  let self := sistema m in
  let r := solicitar_turno dni f h s m in
  (Dict.mem string_dec dni (clientes self) = false ->
     fst r = m /\
     snd r = if Dict.is_empty (clientes self) then SinClientes
             else ClienteInexistente) /\
  (Dict.mem string_dec dni (clientes self) = true ->
   turno_ocupado self f h = true ->
     fst r = m /\ snd r = TurnoOcupado) /\
  (Dict.mem string_dec dni (clientes self) = true ->
   turno_ocupado self f h = false ->
     snd r = TurnoRegistrado (next_id self) /\
     next_id (sistema (fst r)) = next_id self + 1 /\
     get_turno (next_id self) (turnos (sistema (fst r)))
       = Some (mk_Turno (next_id self) dni (isoformat f) (strftime_HM h) s ACTIVO) /\
     (forall k, k <> next_id self ->
        get_turno k (turnos (sistema (fst r))) = get_turno k (turnos self)) /\
     clientes (sistema (fst r)) = clientes self /\
     disco (fst r) = archivos_de (sistema (fst r)) /\
     guardados (fst r) = S (guardados m)).
Proof.
  intros self r. subst r. unfold solicitar_turno. fold self.
  split; [|split].
  - intros Hm. destruct (Dict.is_empty (clientes self)); [auto|].
    rewrite Hm. simpl. auto.
  - intros Hm Ho. rewrite (mem_true_not_empty _ _ _ Hm), Hm, Ho. simpl. auto.
  - intros Hm Ho. rewrite (mem_true_not_empty _ _ _ Hm), Hm, Ho. simpl.
    repeat split.
    + apply get_set_eq.
    + intros k Hk. apply get_set_neq. exact Hk.
Qed.

Lemma solicitar_turno_casos_witness :
  snd (solicitar_turno "123" ej_fecha ej_hora "cut" ej_mundo1) = TurnoRegistrado 1
  /\ solicitar_turno "123" ej_fecha ej_hora "color" ej_mundo2 = (ej_mundo2, TurnoOcupado)
  /\ solicitar_turno "999" ej_fecha ej_hora "cut" ej_mundo2 = (ej_mundo2, ClienteInexistente).
Proof.
  split; [|split].
  - destruct (solicitar_turno_casos "123" ej_fecha ej_hora "cut" ej_mundo1)
      as (_ & _ & H).
    apply H; reflexivity.
  - destruct (solicitar_turno_casos "123" ej_fecha ej_hora "color" ej_mundo2)
      as (_ & H & _).
    apply injective_projections; apply H; reflexivity.
  - destruct (solicitar_turno_casos "999" ej_fecha ej_hora "cut" ej_mundo2)
      as (H & _ & _).
    apply injective_projections; apply H; reflexivity.
Defined.

(** ** Refused operations *)

Lemma modificar_fallo_sin_efecto (id : option Z) (op : Opcion) (m : Mundo) :
  es_fallo (snd (modificar_o_cancelar_turno id op m)) = true ->
  fst (modificar_o_cancelar_turno id op m) = m.
Proof.
  unfold modificar_o_cancelar_turno.
  destruct (Dict.is_empty (turnos (sistema m))); [reflexivity|].
  destruct id as [id|]; [|reflexivity].
  destruct (get_turno id (turnos (sistema m))) as [t|]; [|reflexivity].
  destruct op as [f h| | |]; simpl; try discriminate; try reflexivity.
  destruct (turno_ocupado (sistema m) f h); simpl; [reflexivity|discriminate].
Qed.

(** C10. A refused operation changes nothing: whenever a round of the menu
    ends with a refusal message, the instance (clients, appointments,
    counter), the files and the number of saves are those from before.
    The refusals include a DNI already registered, a booking for an unknown
    DNI or for a slot held by an active appointment, and a modification of
    an unknown identifier or towards a slot held by an active
    appointment. *)
Theorem fallo_sin_efecto (m : Mundo) :
  let self := sistema m in
  (forall e, es_fallo (snd (ejecutar_opcion e m)) = true ->
             fst (ejecutar_opcion e m) = m) /\
  (forall dni n t, Dict.mem string_dec dni (clientes self) = true ->
     registrar_cliente dni n t m = (m, ClienteYaExiste)) /\
  (forall dni f h s, Dict.mem string_dec dni (clientes self) = false ->
     es_fallo (snd (solicitar_turno dni f h s m)) = true) /\
  (forall dni f h s, turno_ocupado self f h = true ->
     es_fallo (snd (solicitar_turno dni f h s m)) = true) /\
  (forall id op, get_turno id (turnos self) = None ->
     es_fallo (snd (modificar_o_cancelar_turno (Some id) op m)) = true) /\
  (forall id f h, turno_ocupado self f h = true ->
     es_fallo (snd (modificar_o_cancelar_turno id (ModificarFechaHora f h) m))
     = true).
Proof.
  intros self. repeat split.
  - intros [d n t|d f h s|flt|i op| |]; simpl; try reflexivity; try discriminate.
    + unfold registrar_cliente.
      destruct (Dict.mem string_dec d (clientes (sistema m)));
        [reflexivity|discriminate].
    + unfold solicitar_turno.
      destruct (Dict.is_empty (clientes (sistema m))); [reflexivity|].
      destruct (Dict.mem string_dec d (clientes (sistema m))); [|reflexivity].
      simpl. destruct (turno_ocupado (sistema m) f h); [reflexivity|discriminate].
    + apply modificar_fallo_sin_efecto.
  - intros d n t H. unfold registrar_cliente. fold self. rewrite H. reflexivity.
  - intros d f h s H. unfold solicitar_turno. fold self.
    destruct (Dict.is_empty (clientes self)); [reflexivity|].
    rewrite H. reflexivity.
  - intros d f h s H. unfold solicitar_turno. fold self.
    destruct (Dict.is_empty (clientes self)); [reflexivity|].
    destruct (Dict.mem string_dec d (clientes self)); [|reflexivity].
    simpl. rewrite H. reflexivity.
  - intros id op Hg. unfold modificar_o_cancelar_turno. fold self.
    destruct (Dict.is_empty (turnos self)); [reflexivity|].
    rewrite Hg. reflexivity.
  - intros i f h H. unfold modificar_o_cancelar_turno. fold self.
    destruct (Dict.is_empty (turnos self)); [reflexivity|].
    destruct i as [id|]; [|reflexivity].
    destruct (get_turno id (turnos self)); [|reflexivity].
    rewrite H. reflexivity.
Qed.

Lemma fallo_sin_efecto_witness :
  fst (ejecutar_opcion (Solicitar "123" ej_fecha ej_hora "color") ej_mundo2) = ej_mundo2
  /\ registrar_cliente "123" "Ana" "555" ej_mundo2 = (ej_mundo2, ClienteYaExiste)
  /\ fst (ejecutar_opcion (Modificar (Some 7) CancelarTurno) ej_mundo2) = ej_mundo2.
Proof.
  destruct (fallo_sin_efecto ej_mundo2) as (H1 & H2 & _).
  split; [|split].
  - apply H1. reflexivity.
  - apply H2. reflexivity.
  - apply H1. reflexivity.
Defined.

(** ** Moving an appointment onto its own slot *)

Lemma con_slot_mismo (t : Turno) : con_slot (fecha t) (hora t) t = t.
Proof. destruct t; reflexivity. Qed.

Lemma turno_ocupado_por (self : Peluqueria) (id : Z) (turno : Turno)
  (f : date) (h : time) :
  get_turno id (turnos self) = Some turno ->
  estado turno = ACTIVO ->
  fecha turno = isoformat f -> hora turno = strftime_HM h ->
  turno_ocupado self f h = true.
Proof.
  intros Hg He Hf Hh. unfold turno_ocupado. apply existsb_exists.
  exists turno. split; [eapply get_In_values, Hg|].
  rewrite He, Hf, Hh, !String.eqb_refl. reflexivity.
Qed.

(** C1, as the code has it.  [modificar_o_cancelar_turno] asks
    [turno_ocupado] about the target slot without setting the appointment
    itself aside.  Moving an appointment to the slot it already has is
    therefore refused, with nothing changed, when the appointment is ACTIVO
    (or any other active appointment has that slot); it goes through, the
    appointment keeping its slot and the files being rewritten, exactly
    when no active appointment has the slot. *)
Theorem reprogramar_mismo_slot (m : Mundo) (id : Z)
  (turno : Turno) (f : date) (h : time) :
  get_turno id (turnos (sistema m)) = Some turno ->
  fecha turno = isoformat f ->
  hora turno = strftime_HM h ->
  let r := modificar_o_cancelar_turno (Some id) (ModificarFechaHora f h) m in
  (estado turno = ACTIVO -> r = (m, TurnoOcupado)) /\
  (turno_ocupado (sistema m) f h = true -> r = (m, TurnoOcupado)) /\
  (turno_ocupado (sistema m) f h = false ->
     r = (guardar_datos (sistema m) m, TurnoActualizado) /\
     get_turno id (turnos (sistema (fst r))) = Some turno).
Proof.
  intros Hg Hf Hh r.
  assert (Hne : Dict.is_empty (turnos (sistema m)) = false).
  { destruct (turnos (sistema m)); [discriminate|reflexivity]. }
  assert (Hocc : turno_ocupado (sistema m) f h = true -> r = (m, TurnoOcupado)).
  { intros Ho. subst r. unfold modificar_o_cancelar_turno.
    rewrite Hne, Hg, Ho. reflexivity. }
  split; [|split].
  - intros He. apply Hocc. eapply turno_ocupado_por; eauto.
  - exact Hocc.
  - intros Ho.
    assert (Hr : r = (guardar_datos (sistema m) m, TurnoActualizado)).
    { subst r. unfold modificar_o_cancelar_turno.
      rewrite Hne, Hg, Ho, <- Hf, <- Hh, con_slot_mismo.
      unfold set_turno. rewrite (set_get_same _ _ _ _ Hg), self_eta.
      reflexivity. }
    split; [exact Hr|]. rewrite Hr. exact Hg.
Qed.

Lemma reprogramar_mismo_slot_witness :
  modificar_o_cancelar_turno (Some 1) (ModificarFechaHora ej_fecha ej_hora)
    ej_mundo2
    = (ej_mundo2, TurnoOcupado)
  /\ modificar_o_cancelar_turno (Some 1) (ModificarFechaHora ej_fecha ej_hora)
    ej_mundo3
    = (guardar_datos (sistema ej_mundo3) ej_mundo3, TurnoActualizado).
Proof.
  split.
  - apply (proj1 (reprogramar_mismo_slot ej_mundo2 1
                    (mk_Turno 1 "123" "2024-05-01" "10:00" "cut" ACTIVO)
                    ej_fecha ej_hora eq_refl eq_refl eq_refl)).
    reflexivity.
  - apply (proj2 (proj2 (reprogramar_mismo_slot ej_mundo3 1
                    (mk_Turno 1 "123" "2024-05-01" "10:00" "cut" CANCELADO)
                    ej_fecha ej_hora eq_refl eq_refl eq_refl))).
    reflexivity.
Defined.

(** C1, as the claim has it, fails: appointment 1 is ACTIVO on 2024-05-01 at
    10:00, and moving it to 2024-05-01 10:00 is refused as a conflict. *)
Lemma reprogramar_mismo_slot_contraejemplo :
  get_turno 1 (turnos (sistema ej_mundo2))
    = Some (mk_Turno 1 "123" (isoformat ej_fecha) (strftime_HM ej_hora) "cut" ACTIVO)
  /\ modificar_o_cancelar_turno (Some 1) (ModificarFechaHora ej_fecha ej_hora)
       ej_mundo2
    = (ej_mundo2, TurnoOcupado)
  /\ ~ (forall (m : Mundo) (id : Z) (turno : Turno) (f : date) (h : time),
          get_turno id (turnos (sistema m)) = Some turno ->
          fecha turno = isoformat f -> hora turno = strftime_HM h ->
          snd (modificar_o_cancelar_turno (Some id) (ModificarFechaHora f h) m)
          = TurnoActualizado).
Proof.
  split; [reflexivity|]. split; [reflexivity|].
  intros H.
  specialize (H ej_mundo2 1 _ ej_fecha ej_hora eq_refl eq_refl eq_refl).
  discriminate H.
Qed.

(** ** One active appointment per slot *)

Lemma activo_en_con_servicio (f h s : string) (t : Turno) :
  activo_en f h (con_servicio s t) = activo_en f h t.
Proof. reflexivity. Qed.

Lemma activo_en_cancelado (f h : string) (t : Turno) :
  activo_en f h (con_estado CANCELADO t) = false.
Proof. reflexivity. Qed.

Lemma activo_en_otro_slot (f h f' h' : string) (t : Turno) :
  fecha t = f -> hora t = h -> activo_en f' h' t = true -> f' = f /\ h' = h.
Proof.
  unfold activo_en. intros Hf Hh H.
  apply andb_prop in H as [H H3]. apply andb_prop in H as [_ H2].
  rewrite String.eqb_eq in H2, H3. split; congruence.
Qed.

(** Storing, under any key, an appointment placed in a slot that no active
    appointment holds keeps the slots disjoint. *)
Lemma sin_superposicion_set (self : Peluqueria) (cs : Dict.t) (n : Z)
  (k : Z) (t : Turno) :
  sin_superposicion self ->
  activos_en (fecha t) (hora t) self = 0%nat ->
  sin_superposicion (mk_Peluqueria cs (set_turno k t (turnos self)) n).
Proof.
  intros Hinv Hfree f h. unfold activos_en in *. simpl.
  pose proof (count_set_le Z.eq_dec (activo_en f h) k t (turnos self)) as Hle.
  fold set_turno in Hle.
  destruct (activo_en f h t) eqn:Ha.
  - apply (activo_en_otro_slot (fecha t) (hora t)) in Ha as [-> ->]; trivial.
    rewrite Hfree in Hle. exact Hle.
  - specialize (Hinv f h). unfold activos_en in Hinv. simpl in Hle.
    lia.
Qed.

Lemma sin_superposicion_opcion (e : Entrada) (m : Mundo) :
  sin_superposicion (sistema m) ->
  sin_superposicion (sistema (fst (ejecutar_opcion e m))).
Proof.
  intros Hinv.
  destruct e as [d n t|d f h s|flt|i op| |]; simpl; trivial.
  - unfold registrar_cliente.
    destruct (Dict.mem string_dec d (clientes (sistema m))); trivial.
  - unfold solicitar_turno.
    destruct (Dict.is_empty (clientes (sistema m))); trivial.
    destruct (Dict.mem string_dec d (clientes (sistema m))); trivial. simpl.
    destruct (turno_ocupado (sistema m) f h) eqn:Ho; trivial. simpl.
    apply sin_superposicion_set; trivial.
    apply turno_ocupado_activos, Ho.
  - unfold modificar_o_cancelar_turno.
    destruct (Dict.is_empty (turnos (sistema m))); trivial.
    destruct i as [id|]; trivial.
    destruct (get_turno id (turnos (sistema m))) as [t|] eqn:Hg; trivial.
    destruct op as [f h|s| |]; trivial.
    + destruct (turno_ocupado (sistema m) f h) eqn:Ho; trivial. simpl.
      apply sin_superposicion_set; trivial.
      apply turno_ocupado_activos, Ho.
    + simpl. intros f h. unfold activos_en. simpl.
      pose proof (count_set_present Z.eq_dec (activo_en f h) id
                    (con_servicio s t) t (turnos (sistema m)) Hg) as Heq.
      rewrite activo_en_con_servicio in Heq. fold set_turno in Heq.
      specialize (Hinv f h). unfold activos_en in Hinv. lia.
    + simpl. intros f h. unfold activos_en. simpl.
      pose proof (count_set_le Z.eq_dec (activo_en f h) id
                    (con_estado CANCELADO t) (turnos (sistema m))) as Hle.
      rewrite activo_en_cancelado in Hle. fold set_turno in Hle.
      specialize (Hinv f h). unfold activos_en in Hinv. simpl in Hle. lia.
Qed.

Lemma sin_superposicion_ejecutar (es : list Entrada) (m : Mundo) :
  sin_superposicion (sistema m) ->
  sin_superposicion (sistema (fst (ejecutar es m))).
Proof.
  revert m. induction es as [|e es IH]; intros m Hinv; simpl; trivial.
  pose proof (sin_superposicion_opcion e m Hinv) as H1.
  destruct (ejecutar_opcion e m) as [m1 msg]. simpl in H1.
  specialize (IH m1 H1).
  destruct (ejecutar es m1) as [m2 msgs]. exact IH.
Qed.

(** C2. After any run of menu rounds (register, book, list, move, change
    service, cancel, save) from the program started without files, every
    slot, written as its [fecha] and [hora] texts, is held by at most one
    appointment whose estado is ACTIVO; cancelled ones are not counted. *)
Theorem un_activo_por_slot (es : list Entrada) (f h : string) :
  (activos_en f h (sistema (fst (ejecutar es mundo_inicial))) <= 1)%nat.
Proof.
  revert f h. change (sin_superposicion (sistema (fst (ejecutar es mundo_inicial)))).
  apply sin_superposicion_ejecutar.
  intros f h. unfold activos_en. simpl. lia.
Qed.

(** ** The text of a date and of a time determines it *)

Lemma digit_inj (a b : Z) : digit a = digit b -> a mod 10 = b mod 10.
Proof.
  unfold digit. intros H.
  apply (f_equal nat_of_ascii) in H.
  pose proof (Z.mod_pos_bound a 10 ltac:(lia)) as Ha.
  pose proof (Z.mod_pos_bound b 10 ltac:(lia)) as Hb.
  rewrite !nat_ascii_embedding in H by lia.
  lia.
Qed.

Lemma fmt02_inj (a b : Z) :
  0 <= a < 100 -> 0 <= b < 100 -> fmt02 a = fmt02 b -> a = b.
Proof.
  unfold fmt02. intros Ha Hb H. injection H as H1 H2.
  apply digit_inj in H1, H2.
  pose proof (Z.div_mod a 10 ltac:(lia)).
  pose proof (Z.div_mod b 10 ltac:(lia)).
  rewrite (Z.mod_small (a / 10)) in H1
    by (split; [apply Z.div_pos|apply Z.div_lt_upper_bound]; lia).
  rewrite (Z.mod_small (b / 10)) in H1
    by (split; [apply Z.div_pos|apply Z.div_lt_upper_bound]; lia).
  lia.
Qed.

Lemma fmt04_inj (a b : Z) :
  0 <= a < 10000 -> 0 <= b < 10000 -> fmt04 a = fmt04 b -> a = b.
Proof.
  unfold fmt04, fmt02. intros Ha Hb H. injection H as H1 H2 H3 H4.
  apply digit_inj in H1, H2, H3, H4.
  revert H1 H2 H3 H4. Z.div_mod_to_equations. lia.
Qed.

Lemma date_valid_rango (d : date) :
  date_valid d = true ->
  0 <= year d < 10000 /\ 0 <= month d < 100 /\ 0 <= day d < 100.
Proof.
  unfold date_valid, days_in_month. intros H.
  repeat (apply andb_prop in H as [H ?]).
  destruct (month d =? 2); [destruct (is_leap (year d))|];
    [| |destruct ((month d =? 4) || (month d =? 6) || (month d =? 9)
                  || (month d =? 11))%bool]; lia.
Qed.

Lemma time_valid_rango (t : time) :
  time_valid t = true -> 0 <= hour t < 100 /\ 0 <= minute t < 100.
Proof.
  unfold time_valid. intros H. repeat (apply andb_prop in H as [H ?]). lia.
Qed.

Lemma isoformat_inj (d1 d2 : date) :
  date_valid d1 = true -> date_valid d2 = true ->
  isoformat d1 = isoformat d2 -> d1 = d2.
Proof.
  intros V1 V2 H.
  apply date_valid_rango in V1, V2.
  destruct d1 as [y1 m1 a1], d2 as [y2 m2 a2]. simpl in V1, V2.
  unfold isoformat in H. simpl in H.
  injection H as Y1 Y2 Y3 Y4 M1 M2 D1 D2.
  assert (y1 = y2).
  { apply fmt04_inj; try lia. unfold fmt04, fmt02. congruence. }
  assert (m1 = m2).
  { apply fmt02_inj; try lia. unfold fmt02. congruence. }
  assert (a1 = a2).
  { apply fmt02_inj; try lia. unfold fmt02. congruence. }
  congruence.
Qed.

Lemma strftime_HM_inj (t1 t2 : time) :
  time_valid t1 = true -> time_valid t2 = true ->
  strftime_HM t1 = strftime_HM t2 -> t1 = t2.
Proof.
  intros V1 V2 H.
  apply time_valid_rango in V1, V2.
  destruct t1 as [a1 b1], t2 as [a2 b2]. simpl in V1, V2.
  unfold strftime_HM in H. simpl in H.
  injection H as A1 A2 B1 B2.
  assert (a1 = a2).
  { apply fmt02_inj; try lia. unfold fmt02. congruence. }
  assert (b1 = b2).
  { apply fmt02_inj; try lia. unfold fmt02. congruence. }
  congruence.
Qed.

(** ** Runs of bookings *)

Lemma no_activo_tras_set (self : Peluqueria) (cs : Dict.t) (n k : Z)
  (t : Turno) (f : date) (h : time) :
  turno_ocupado self f h = false ->
  activo_en (isoformat f) (strftime_HM h) t = false ->
  turno_ocupado (mk_Peluqueria cs (set_turno k t (turnos self)) n) f h = false.
Proof.
  intros Ho Ha. apply turno_ocupado_activos in Ho.
  apply turno_ocupado_activos. unfold activos_en in *. simpl.
  pose proof (count_set_le Z.eq_dec (activo_en (isoformat f) (strftime_HM h))
                k t (turnos self)) as Hle.
  fold set_turno in Hle. rewrite Ha in Hle. simpl in Hle. lia.
Qed.

Lemma solicitar_varios (ps : list Pedido) (m : Mundo) :
  Forall (fun p =>
            Dict.mem string_dec (p_dni p) (clientes (sistema m)) = true /\
            date_valid (p_fecha p) = true /\ time_valid (p_hora p) = true /\
            turno_ocupado (sistema m) (p_fecha p) (p_hora p) = false) ps ->
  NoDup (map (fun p => (p_fecha p, p_hora p)) ps) ->
  snd (ejecutar (map solicitar ps) m)
  = map TurnoRegistrado (ids_desde (next_id (sistema m)) (List.length ps)).
Proof.
  revert m. induction ps as [|p ps IH]; intros m Hall Hnd; [reflexivity|].
  inversion Hall as [|? ? (Hm & Vf & Vh & Ho) Hrest]; subst.
  inversion Hnd as [|? ? Hnotin Hnd']; subst.
  simpl. unfold solicitar_turno.
  rewrite (mem_true_not_empty _ _ _ Hm), Hm, Ho. simpl.
  match goal with
  | |- context [ejecutar _ ?m1] => specialize (IH m1)
  end.
  destruct (ejecutar (map solicitar ps) _) as [m2 msgs]. simpl in *.
  f_equal. apply IH; [|exact Hnd'].
  rewrite Forall_forall in Hrest |- *. intros q Hq.
  destruct (Hrest q Hq) as (Hm' & Vf' & Vh' & Ho').
  repeat split; trivial.
  apply no_activo_tras_set; trivial.
  destruct (activo_en _ _ _) eqn:Ha; trivial.
  apply (activo_en_otro_slot (isoformat (p_fecha p)) (strftime_HM (p_hora p)))
    in Ha as [Hf Hh]; trivial.
  apply isoformat_inj in Hf; trivial.
  apply strftime_HM_inj in Hh; trivial.
  exfalso. apply Hnotin. apply in_map_iff. exists q. split; [congruence|trivial].
Qed.

Lemma ids_desde_seq (k : nat) (n : nat) :
  ids_desde (Z.of_nat n) k = map Z.of_nat (seq n k).
Proof.
  revert n. induction k as [|k IH]; intros n; simpl; [reflexivity|].
  f_equal. rewrite <- IH. f_equal. lia.
Qed.

Lemma keys_turnos_desde (n : Z) (ps : list Pedido) :
  Dict.keys (turnos_desde n ps) = ids_desde n (List.length ps).
Proof.
  revert n. induction ps as [|p ps IH]; intros n; simpl; [reflexivity|].
  f_equal. apply IH.
Qed.

Lemma ids_desde_cota (n : Z) (k : nat) (z : Z) :
  In z (ids_desde n k) -> n <= z.
Proof.
  revert n. induction k as [|k IH]; intros n; simpl; [tauto|].
  intros [<-|H]; [lia|]. apply IH in H. lia.
Qed.

(** What a run of accepted bookings leaves in the instance: the stored
    appointments followed by the new ones in the order of the requests,
    the counter moved past them, the clients as they were. *)
Lemma solicitar_varios_estado (ps : list Pedido) (m : Mundo) :
  Forall (fun k => k < next_id (sistema m)) (Dict.keys (turnos (sistema m))) ->
  Forall (fun p =>
            Dict.mem string_dec (p_dni p) (clientes (sistema m)) = true /\
            date_valid (p_fecha p) = true /\ time_valid (p_hora p) = true /\
            turno_ocupado (sistema m) (p_fecha p) (p_hora p) = false) ps ->
  NoDup (map (fun p => (p_fecha p, p_hora p)) ps) ->
  let self' := sistema (fst (ejecutar (map solicitar ps) m)) in
  turnos self'
    = (turnos (sistema m) ++ turnos_desde (next_id (sistema m)) ps)%list /\
  next_id self' = next_id (sistema m) + Z.of_nat (List.length ps) /\
  clientes self' = clientes (sistema m).
Proof.
  revert m. induction ps as [|p ps IH]; intros m Hfr Hall Hnd.
  - simpl. rewrite app_nil_r. repeat split. lia.
  - inversion Hall as [|? ? (Hm & Vf & Vh & Ho) Hrest]; subst.
    inversion Hnd as [|? ? Hnotin Hnd']; subst.
    cbn [map ejecutar solicitar ejecutar_opcion]. unfold solicitar_turno.
    rewrite (mem_true_not_empty _ _ _ Hm), Hm, Ho. cbn [negb].
    set (self1 := mk_Peluqueria _ _ _).
    specialize (IH (guardar_datos self1 m)).
    destruct (ejecutar (map solicitar ps) (guardar_datos self1 m))
      as [m2 msgs].
    cbn [fst sistema guardar_datos] in *.
    assert (Hset : turnos self1
                   = (turnos (sistema m)
                      ++ [(next_id (sistema m), turno_de (next_id (sistema m)) p)])%list).
    { subst self1. cbn [turnos id_turno]. unfold set_turno.
      apply set_absent, get_None_keys. intros Hin.
      rewrite Forall_forall in Hfr. specialize (Hfr _ Hin). lia. }
    destruct IH as (Ht & Hn & Hc).
    + rewrite Hset. subst self1. cbn [next_id]. unfold Dict.keys in *.
      rewrite map_app, Forall_app. split.
      * eapply Forall_impl; [|exact Hfr]. cbn beta. intros; lia.
      * repeat constructor. cbn [map fst]. lia.
    + rewrite Forall_forall in Hrest |- *. intros q Hq.
      destruct (Hrest q Hq) as (Hm' & Vf' & Vh' & Ho').
      subst self1. cbn [clientes]. repeat split; trivial.
      apply no_activo_tras_set; trivial.
      destruct (activo_en _ _ _) eqn:Ha; trivial.
      apply (activo_en_otro_slot (isoformat (p_fecha p))
               (strftime_HM (p_hora p))) in Ha as [Hf Hh]; trivial.
      apply isoformat_inj in Hf; trivial.
      apply strftime_HM_inj in Hh; trivial.
      exfalso. apply Hnotin. apply in_map_iff. exists q.
      split; [congruence|trivial].
    + exact Hnd'.
    + rewrite Ht, Hn, Hc, Hset. subst self1. cbn [next_id clientes].
      rewrite <- app_assoc. cbn [app turnos_desde List.length].
      repeat split. lia.
Qed.

(** C4. In a store without appointments, with the counter at 1, a run of
    bookings for registered clients at pairwise different (date, time)
    pairs is accepted one by one: the rounds report the identifiers
    1, 2, 3, ... in the order of the requests, and afterwards the store
    holds exactly the requested appointments, in that order and under
    those identifiers, each ACTIVO with the client, date, time and service
    of its request; the counter stands at one more than their number and
    the clients are as before. *)
Theorem turnos_distintos_ids_crecientes (ps : list Pedido) (m : Mundo) :
  turnos (sistema m) = Dict.empty ->
  next_id (sistema m) = 1 ->
  Forall (fun p =>
            Dict.mem string_dec (p_dni p) (clientes (sistema m)) = true /\
            date_valid (p_fecha p) = true /\ time_valid (p_hora p) = true) ps ->
  NoDup (map (fun p => (p_fecha p, p_hora p)) ps) ->
  let r := ejecutar (map solicitar ps) m in
  snd r = map TurnoRegistrado (map Z.of_nat (seq 1 (List.length ps))) /\
  turnos (sistema (fst r)) = turnos_desde 1 ps /\
  Dict.keys (turnos (sistema (fst r)))
    = map Z.of_nat (seq 1 (List.length ps)) /\
  next_id (sistema (fst r)) = 1 + Z.of_nat (List.length ps) /\
  clientes (sistema (fst r)) = clientes (sistema m).
Proof.
  intros Hemp Hid Hall Hnd r.
  assert (Hall' : Forall (fun p =>
            Dict.mem string_dec (p_dni p) (clientes (sistema m)) = true /\
            date_valid (p_fecha p) = true /\ time_valid (p_hora p) = true /\
            turno_ocupado (sistema m) (p_fecha p) (p_hora p) = false) ps).
  { rewrite Forall_forall in Hall |- *. intros p Hp.
    destruct (Hall p Hp) as (H1 & H2 & H3). repeat split; trivial.
    unfold turno_ocupado. rewrite Hemp. reflexivity. }
  assert (Hfr : Forall (fun k => k < next_id (sistema m))
                       (Dict.keys (turnos (sistema m)))).
  { rewrite Hemp. constructor. }
  destruct (solicitar_varios_estado ps m Hfr Hall' Hnd) as (Ht & Hn & Hc).
  fold r in Ht, Hn, Hc. rewrite Hemp, Hid in Ht.
  change (Dict.empty ++ turnos_desde 1 ps)%list with (turnos_desde 1 ps) in Ht.
  split; [|split; [|split; [|split]]].
  - subst r. rewrite <- ids_desde_seq. change (Z.of_nat 1) with 1.
    rewrite <- Hid. apply solicitar_varios; trivial.
  - exact Ht.
  - rewrite Ht, keys_turnos_desde, <- ids_desde_seq. reflexivity.
  - rewrite Hn, Hid. reflexivity.
  - exact Hc.
Qed.

Lemma turnos_distintos_ids_crecientes_witness :
  snd (ejecutar (map solicitar ej_pedidos) ej_mundo1)
  = [TurnoRegistrado 1; TurnoRegistrado 2; TurnoRegistrado 3]
  /\ turnos (sistema (fst (ejecutar (map solicitar ej_pedidos) ej_mundo1)))
  = [(1, mk_Turno 1 "123" "2024-05-01" "10:00" "cut" ACTIVO);
     (2, mk_Turno 2 "123" "2024-05-01" "10:30" "color" ACTIVO);
     (3, mk_Turno 3 "123" "2024-05-02" "10:00" "cut" ACTIVO)].
Proof.
  assert (H1 : turnos (sistema ej_mundo1) = Dict.empty) by reflexivity.
  assert (H2 : next_id (sistema ej_mundo1) = 1) by reflexivity.
  assert (H3 : Forall (fun p =>
            Dict.mem string_dec (p_dni p) (clientes (sistema ej_mundo1)) = true /\
            date_valid (p_fecha p) = true /\ time_valid (p_hora p) = true)
            ej_pedidos) by (repeat constructor).
  assert (H4 : NoDup (map (fun p => (p_fecha p, p_hora p)) ej_pedidos))
    by (repeat constructor; simpl; intuition discriminate).
  destruct (turnos_distintos_ids_crecientes ej_pedidos ej_mundo1 H1 H2 H3 H4)
    as (Ha & Hb & _).
  split; [exact Ha|exact Hb].
Defined.

(** ** Cancelling frees the slot *)

(** C6, as the code has it.  When an appointment is ACTIVO in the slot of
    date [f] and time [h] and no other active appointment is in that slot,
    cancelling it marks it CANCELADO, and a booking for a registered client
    at the same date and time is then accepted, gets the current counter
    value and is stored ACTIVO. *)
Theorem cancelar_libera_slot (m : Mundo) (id : Z)
  (turno : Turno) (f : date) (h : time) (dni' s : string) :
  get_turno id (turnos (sistema m)) = Some turno ->
  estado turno = ACTIVO ->
  fecha turno = isoformat f ->
  hora turno = strftime_HM h ->
  (activos_en (isoformat f) (strftime_HM h) (sistema m) <= 1)%nat ->
  Dict.mem string_dec dni' (clientes (sistema m)) = true ->
  let r1 := modificar_o_cancelar_turno (Some id) CancelarTurno m in
  let r2 := solicitar_turno dni' f h s (fst r1) in
  snd r1 = TurnoActualizado /\
  get_turno id (turnos (sistema (fst r1))) = Some (con_estado CANCELADO turno) /\
  snd r2 = TurnoRegistrado (next_id (sistema m)) /\
  get_turno (next_id (sistema m)) (turnos (sistema (fst r2)))
    = Some (mk_Turno (next_id (sistema m)) dni' (isoformat f) (strftime_HM h)
                     s ACTIVO).
Proof.
  intros Hg He Hf Hh Huno Hm r1 r2.
  assert (Hne : Dict.is_empty (turnos (sistema m)) = false).
  { destruct (turnos (sistema m)); [discriminate|reflexivity]. }
  assert (Hr1 : r1 = (guardar_datos
                        (mk_Peluqueria (clientes (sistema m))
                           (set_turno id (con_estado CANCELADO turno)
                              (turnos (sistema m)))
                           (next_id (sistema m))) m, TurnoActualizado)).
  { subst r1. unfold modificar_o_cancelar_turno. rewrite Hne, Hg.
    reflexivity. }
  assert (Hlibre : turno_ocupado (sistema (fst r1)) f h = false).
  { rewrite Hr1. simpl. apply turno_ocupado_activos. unfold activos_en in *.
    simpl.
    pose proof (count_set_present Z.eq_dec
                  (activo_en (isoformat f) (strftime_HM h)) id
                  (con_estado CANCELADO turno) turno (turnos (sistema m)) Hg)
      as Heq.
    fold set_turno in Heq. rewrite activo_en_cancelado in Heq.
    assert (Ha : activo_en (isoformat f) (strftime_HM h) turno = true).
    { unfold activo_en. rewrite He, Hf, Hh, !String.eqb_refl. reflexivity. }
    rewrite Ha in Heq. simpl in Heq. lia. }
  assert (Hm1 : Dict.mem string_dec dni' (clientes (sistema (fst r1))) = true).
  { rewrite Hr1. exact Hm. }
  assert (Hn1 : next_id (sistema (fst r1)) = next_id (sistema m)).
  { rewrite Hr1. reflexivity. }
  destruct (solicitar_turno_ok dni' f h s (fst r1) Hm1 Hlibre) as (Hs & Hget).
  fold r2 in Hs, Hget. rewrite Hn1 in Hs, Hget.
  split; [rewrite Hr1; reflexivity|].
  split; [rewrite Hr1; simpl; apply get_set_eq|].
  split; trivial.
Qed.

Lemma cancelar_libera_slot_witness :
  snd (solicitar_turno "123" ej_fecha ej_hora "color"
         (fst (modificar_o_cancelar_turno (Some 1) CancelarTurno ej_mundo2)))
  = TurnoRegistrado 2.
Proof.
  apply (cancelar_libera_slot ej_mundo2 1
           (mk_Turno 1 "123" "2024-05-01" "10:00" "cut" ACTIVO)
           ej_fecha ej_hora "123" "color");
    reflexivity.
Defined.

(** C6, as the claim has it, fails.  The program started on files that
    hold appointments 1 and 2, both ACTIVO on 2024-05-01 at 10:00:
    appointment 1 is cancelled, and a booking by the registered client 123
    for 2024-05-01 at 10:00 is still refused, because appointment 2 holds
    the slot. *)
Lemma cancelar_libera_slot_contraejemplo :
  Peluqueria_init ej_int ej_disco_doble = Ok (crudo ej_sistema_doble)
  /\ get_turno 1 (turnos (sistema ej_mundo_doble))
    = Some (mk_Turno 1 "123" (isoformat ej_fecha) (strftime_HM ej_hora) "cut"
                     ACTIVO)
  /\ Dict.mem string_dec "123" (clientes (sistema ej_mundo_doble)) = true
  /\ modificar_o_cancelar_turno (Some 1) CancelarTurno ej_mundo_doble
    = (guardar_datos
         (mk_Peluqueria (clientes ej_sistema_doble)
            [(1, mk_Turno 1 "123" "2024-05-01" "10:00" "cut" CANCELADO);
             (2, mk_Turno 2 "123" "2024-05-01" "10:00" "color" ACTIVO)] 3)
         ej_mundo_doble,
       TurnoActualizado)
  /\ snd (solicitar_turno "123" ej_fecha ej_hora "tinte"
            (fst (modificar_o_cancelar_turno (Some 1) CancelarTurno
                    ej_mundo_doble)))
    = TurnoOcupado
  /\ ~ (forall (m : Mundo) (id : Z) (turno : Turno) (f : date) (h : time)
               (dni' s : string),
          get_turno id (turnos (sistema m)) = Some turno ->
          estado turno = ACTIVO ->
          fecha turno = isoformat f -> hora turno = strftime_HM h ->
          Dict.mem string_dec dni' (clientes (sistema m)) = true ->
          exists nuevo,
            snd (solicitar_turno dni' f h s
                   (fst (modificar_o_cancelar_turno (Some id) CancelarTurno
                           m)))
            = TurnoRegistrado nuevo).
Proof.
  split; [reflexivity|]. split; [reflexivity|]. split; [reflexivity|].
  split; [reflexivity|]. split; [reflexivity|].
  intros H.
  destruct (H ej_mundo_doble 1 _ ej_fecha ej_hora "123" "tinte"
              eq_refl eq_refl eq_refl eq_refl eq_refl) as [nuevo E].
  discriminate E.
Qed.

(** ** The order of a listing *)




















(** ** Reading back [str(z)] *)

Lemma to_int_no_nil (z : Z) : Z.to_int z <> Pos Nil /\ Z.to_int z <> Neg Nil.
Proof.
  destruct z as [|p|p]; simpl; split; try discriminate; intros H;
    injection H as H; exact (DecimalPos.Unsigned.to_uint_nonnil p H).
Qed.

(** The sample reader gives back the [int] whose decimal text it reads,
    as [int] does. *)
Lemma ej_int_py_str (z : Z) : ej_int (py_str z) = Some z.
Proof.
  unfold ej_int, py_str. destruct (to_int_no_nil z) as [H1 H2].
  rewrite (NilZero.isi _ H1 H2). simpl. f_equal. apply DecimalZ.of_to.
Qed.

(** ** Every state of the program is keyed by the records' identifiers *)

Section DictKeys.
Context {K V : Type}.
Variable K_dec : forall a b : K, {a = b} + {a <> b}.

Lemma keys_set_In (k k0 : K) (v : V) d :
  In k0 (Dict.keys (Dict.set K_dec k v d)) -> k0 = k \/ In k0 (Dict.keys d).
Proof.
  induction d as [|[k' v'] r IH]; simpl.
  - intros [E|[]]. auto.
  - destruct (K_dec k k') as [E|N]; simpl.
    + intros [E'|I]; auto.
    + intros [E'|I]; auto. destruct (IH I); auto.
Qed.

Lemma NoDup_keys_set (k : K) (v : V) d :
  NoDup (Dict.keys d) -> NoDup (Dict.keys (Dict.set K_dec k v d)).
Proof.
  induction d as [|[k' v'] r IH]; simpl; intros H.
  - constructor; [intros []|constructor].
  - inversion H as [|? ? Hn Hr]; subst.
    destruct (K_dec k k') as [E|N]; simpl.
    + subst k'. constructor; assumption.
    + constructor; [|apply IH, Hr].
      intros I. apply keys_set_In in I as [E|I]; [congruence|auto].
Qed.

Lemma Forall_set (P : K * V -> Prop) (k : K) (v : V) d :
  P (k, v) -> Forall P d -> Forall P (Dict.set K_dec k v d).
Proof.
  intros Hkv. induction 1 as [|[k' v'] r Hx Hr IH]; simpl.
  - constructor; [exact Hkv|constructor].
  - destruct (K_dec k k'); constructor; assumption.
Qed.
End DictKeys.

Lemma bien_formado_cargar_clientes rows (cs cs' : Dict.t) :
  NoDup (Dict.keys cs) -> Forall (fun kv => fst kv = py_dni (snd kv)) cs ->
  cargar_clientes rows cs = Ok cs' ->
  NoDup (Dict.keys cs') /\ Forall (fun kv => fst kv = py_dni (snd kv)) cs'.
Proof.
  revert cs. induction rows as [|row rows IH]; intros cs Hn Hk;
    cbn [cargar_clientes].
  - intros H. injection H as <-. auto.
  - destruct (leer_cliente row) as [c|]; [|discriminate]. cbn [bind].
    apply IH.
    + apply NoDup_keys_set, Hn.
    + apply Forall_set; [reflexivity|exact Hk].
Qed.

Lemma bien_formado_cargar_turnos py_int rows (ts ts' : Dict.t) (mx mx' : Z) :
  NoDup (Dict.keys ts) -> Forall (fun kv => fst kv = py_id_turno (snd kv)) ts ->
  cargar_turnos py_int rows ts mx = Ok (ts', mx') ->
  NoDup (Dict.keys ts') /\ Forall (fun kv => fst kv = py_id_turno (snd kv)) ts'.
Proof.
  revert ts mx. induction rows as [|row rows IH]; intros ts mx Hn Hk;
    cbn [cargar_turnos].
  - intros H. injection H as <- _. auto.
  - destruct (leer_turno py_int row) as [t|]; [|discriminate]. cbn [bind].
    apply IH.
    + apply NoDup_keys_set, Hn.
    + apply Forall_set; [reflexivity|exact Hk].
Qed.

(** Whatever the files hold, a load that succeeds leaves both dicts keyed
    by the identifier that the record itself carries. *)
Lemma bien_formado_py_init py_int (d : Disco) (self : PeluqueriaPy) :
  Peluqueria_init py_int d = Ok self -> bien_formado_py self.
Proof.
  unfold Peluqueria_init, cargar_datos, bien_formado_py.
  cbn [py_clientes py_turnos py_next_id]. intros H.
  assert (Hcs : forall cs,
             match CLIENTES_FILE d with
             | Some f => cargar_clientes (DictReader f) Dict.empty
             | None => Ok Dict.empty
             end = Ok cs ->
             NoDup (Dict.keys cs) /\
             Forall (fun kv => fst kv = py_dni (snd kv)) cs).
  { intros cs. destruct (CLIENTES_FILE d) as [f|].
    - apply bien_formado_cargar_clientes; constructor.
    - intros E. injection E as <-. split; constructor. }
  destruct (match CLIENTES_FILE d with Some _ => _ | None => _ end)
    as [cs|]; [|discriminate].
  destruct (Hcs cs eq_refl) as [Hc1 Hc2]. cbn [bind] in H.
  destruct (TURNOS_FILE d) as [f|].
  - destruct (cargar_turnos _ _ _ _) as [[ts mx]|] eqn:E; [|discriminate].
    cbn [bind fst snd] in H. injection H as <-. cbn [py_clientes py_turnos].
    apply bien_formado_cargar_turnos in E; [|constructor|constructor].
    destruct E as [Ht1 Ht2]. repeat split; assumption.
  - injection H as <-. cbn [py_clientes py_turnos].
    repeat split; trivial; constructor.
Qed.

Lemma keys_crudo_clientes (cs : Dict.t (K:=string) (V:=Cliente)) :
  Dict.keys (crudo_clientes cs) = map Some (Dict.keys cs).
Proof. unfold Dict.keys, crudo_clientes. rewrite !map_map. reflexivity. Qed.

Lemma keys_crudo_turnos (ts : Dict.t (K:=Z) (V:=Turno)) :
  Dict.keys (crudo_turnos ts) = Dict.keys ts.
Proof. unfold Dict.keys, crudo_turnos. rewrite map_map. reflexivity. Qed.

Lemma NoDup_map_Some {A} (l : list A) : NoDup (map Some l) <-> NoDup l.
Proof.
  split; [apply NoDup_map_inv|].
  induction 1 as [|a l Hn Hd IH]; simpl; constructor; trivial.
  intros Hin. apply in_map_iff in Hin as (b & E & Hb).
  injection E as ->. auto.
Qed.

(** An instance without [None] is keyed by its records' identifiers as
    Python holds it exactly when it is so as typed. *)
Lemma bien_formado_crudo (self : Peluqueria) :
  bien_formado_py (crudo self) <-> bien_formado self.
Proof.
  unfold bien_formado_py, bien_formado, crudo.
  cbn [py_clientes py_turnos].
  rewrite keys_crudo_clientes, keys_crudo_turnos, NoDup_map_Some.
  unfold crudo_clientes, crudo_turnos. rewrite !Forall_map.
  cbn [fst snd crudo_cliente crudo_turno py_dni py_id_turno].
  split; intros (H1 & H2 & H3 & H4); repeat split; trivial;
    (eapply Forall_impl; [|exact H2]); intros [k c]; cbn [fst snd];
    congruence.
Qed.

Lemma bien_formado_init py_int (d : Disco) (self : Peluqueria) :
  Peluqueria_init py_int d = Ok (crudo self) -> bien_formado self.
Proof.
  intros H. apply bien_formado_crudo. eapply bien_formado_py_init, H.
Qed.

Lemma bien_formado_opcion (e : Entrada) (m : Mundo) :
  bien_formado (sistema m) -> bien_formado (sistema (fst (ejecutar_opcion e m))).
Proof.
  intros Hwf. pose proof Hwf as (Hc1 & Hc2 & Ht1 & Ht2).
  destruct e as [d n t|d f h s|flt|i op| |]; simpl; trivial.
  - unfold registrar_cliente.
    destruct (Dict.mem string_dec d (clientes (sistema m))); trivial.
    repeat split; cbn [fst sistema guardar_datos clientes turnos]; trivial.
    + apply NoDup_keys_set, Hc1.
    + apply Forall_set; [reflexivity|exact Hc2].
  - unfold solicitar_turno.
    destruct (Dict.is_empty (clientes (sistema m))); trivial.
    destruct (Dict.mem string_dec d (clientes (sistema m))); trivial.
    cbn [negb].
    destruct (turno_ocupado (sistema m) f h); trivial.
    repeat split; cbn [fst sistema guardar_datos clientes turnos id_turno];
      trivial.
    + apply NoDup_keys_set, Ht1.
    + apply Forall_set; [reflexivity|exact Ht2].
  - unfold modificar_o_cancelar_turno.
    destruct (Dict.is_empty (turnos (sistema m))); trivial.
    destruct i as [id|]; trivial.
    destruct (get_turno id (turnos (sistema m))) as [t|] eqn:Hg; trivial.
    assert (Hid : id = id_turno t).
    { apply get_In in Hg. rewrite Forall_forall in Ht2.
      apply (Ht2 _ Hg). }
    destruct op as [f h|s| |]; trivial;
      [destruct (turno_ocupado (sistema m) f h); trivial| |];
      repeat split; cbn [fst sistema guardar_datos clientes turnos]; trivial;
      try (apply NoDup_keys_set, Ht1);
      (apply Forall_set; [exact Hid|exact Ht2]).
Qed.

(** From any files that load ([bien_formado_init]), and through any run of
    the menu, the dicts stay keyed by DNI and by id_turno: [bien_formado]
    holds in every state the program is ever in. *)
Lemma bien_formado_ejecutar (es : list Entrada) (m : Mundo) :
  bien_formado (sistema m) -> bien_formado (sistema (fst (ejecutar es m))).
Proof.
  revert m. induction es as [|e es IH]; intros m Hwf; simpl; trivial.
  pose proof (bien_formado_opcion e m Hwf) as H1.
  destruct (ejecutar_opcion e m) as [m1 msg]. simpl in H1.
  specialize (IH m1 H1).
  destruct (ejecutar es m1) as [m2 msgs]. exact IH.
Qed.

(** ** Saving and loading *)

Lemma archivos_de_crudo (self : Peluqueria) :
  archivos_de_py (crudo self) = archivos_de self.
Proof.
  unfold archivos_de_py, archivos_de, crudo, crudo_clientes, crudo_turnos,
    Dict.values.
  cbn [py_clientes py_turnos]. rewrite !map_map. reflexivity.
Qed.

Lemma leer_cliente_fila (c : Cliente) :
  leer_cliente (fila_dict fieldnames_clientes (fila_cliente c))
  = Ok (crudo_cliente c).
Proof. destruct c; reflexivity. Qed.

Lemma leer_turno_fila py_int (t : Turno) :
  py_int (py_str (id_turno t)) = Some (id_turno t) ->
  leer_turno py_int (fila_dict fieldnames_turnos (fila_turno t))
  = Ok (crudo_turno t).
Proof.
  destruct t as [i d f h s e]. cbn [id_turno]. intros Hi.
  unfold leer_turno, fila_turno, fieldnames_turnos.
  change (campo_int py_int (fila_dict _ _) "id_turno")
    with (match py_int (py_str i) with
          | Some z => Ok z
          | None => Error (ValueError (py_str i))
          end).
  rewrite Hi. reflexivity.
Qed.

Lemma DictReader_filas {A} (h : fila) (fila_de : A -> fila) (l : list A) :
  (forall a, fila_vacia (fila_de a) = false) ->
  DictReader (h :: map fila_de l) = map (fun a => fila_dict h (fila_de a)) l.
Proof.
  intros Hne. simpl. induction l as [|a l IH]; simpl; trivial.
  rewrite Hne. simpl. f_equal. exact IH.
Qed.

Lemma cargar_clientes_filas (d2 : Dict.t (K:=string) (V:=Cliente))
  (d1 : Dict.t (K:=option string) (V:=ClientePy)) :
  NoDup (Dict.keys (d1 ++ crudo_clientes d2)%list) ->
  Forall (fun kv => fst kv = dni (snd kv)) d2 ->
  cargar_clientes
    (map (fun c => fila_dict fieldnames_clientes (fila_cliente c))
         (Dict.values d2)) d1
  = Ok (d1 ++ crudo_clientes d2)%list.
Proof.
  revert d1. induction d2 as [|[k c] d2 IH]; intros d1 Hnd Hk;
    unfold Dict.values in *; cbn [map snd cargar_clientes crudo_clientes].
  - rewrite app_nil_r. reflexivity.
  - rewrite leer_cliente_fila. cbn [bind].
    inversion Hk as [|? ? Hkc Hk']; subst. cbn [fst snd] in Hkc. subst k.
    cbn [crudo_clientes map fst snd] in Hnd.
    change (py_dni (crudo_cliente c)) with (Some (dni c)).
    rewrite (set_fresh_app _ _ _ _ _ Hnd).
    fold (crudo_clientes d2) in *.
    rewrite IH; [rewrite <- app_assoc; reflexivity| |exact Hk'].
    rewrite <- app_assoc. exact Hnd.
Qed.

Lemma cargar_turnos_filas py_int (d2 : Dict.t (K:=Z) (V:=Turno))
  (d1 : Dict.t (K:=Z) (V:=TurnoPy)) (mx : Z) :
  (forall z, py_int (py_str z) = Some z) ->
  NoDup (Dict.keys (d1 ++ crudo_turnos d2)%list) ->
  Forall (fun kv => fst kv = id_turno (snd kv)) d2 ->
  exists mx',
    cargar_turnos py_int
      (map (fun t => fila_dict fieldnames_turnos (fila_turno t))
           (Dict.values d2)) d1 mx
    = Ok ((d1 ++ crudo_turnos d2)%list, mx').
Proof.
  intros Hint.
  revert d1 mx. induction d2 as [|[k t] d2 IH]; intros d1 mx Hnd Hk;
    unfold Dict.values in *; cbn [map snd cargar_turnos crudo_turnos].
  - rewrite app_nil_r. eexists. reflexivity.
  - rewrite leer_turno_fila by apply Hint. cbn [bind].
    inversion Hk as [|? ? Hkt Hk']; subst. cbn [fst snd] in Hkt. subst k.
    cbn [crudo_turnos map fst snd] in Hnd.
    change (py_id_turno (crudo_turno t)) with (id_turno t).
    rewrite (set_fresh_app _ _ _ _ _ Hnd).
    fold (crudo_turnos d2) in *.
    destruct (IH (d1 ++ [(id_turno t, crudo_turno t)])%list
                (if id_turno t >? mx then id_turno t else mx)) as [mx' E];
      [rewrite <- app_assoc; exact Hnd|exact Hk'|].
    exists mx'. rewrite E, <- app_assoc. reflexivity.
Qed.

(** The files written from an instance without [None], keyed by its
    records' identifiers, load to that instance (the counter apart). *)
Lemma cargar_guardado py_int (self : Peluqueria) :
  (forall z, py_int (py_str z) = Some z) ->
  bien_formado self ->
  exists n,
    Peluqueria_init py_int (archivos_de self)
    = Ok (mk_PeluqueriaPy (crudo_clientes (clientes self))
                          (crudo_turnos (turnos self)) n).
Proof.
  intros Hint (Hc1 & Hc2 & Ht1 & Ht2).
  unfold Peluqueria_init, cargar_datos, archivos_de.
  cbn [CLIENTES_FILE TURNOS_FILE py_clientes py_turnos py_next_id].
  rewrite (DictReader_filas fieldnames_clientes fila_cliente) by reflexivity.
  rewrite (DictReader_filas fieldnames_turnos fila_turno) by reflexivity.
  rewrite (cargar_clientes_filas (clientes self) Dict.empty);
    [|change (Dict.empty ++ crudo_clientes (clientes self))%list
        with (crudo_clientes (clientes self));
      rewrite keys_crudo_clientes; apply NoDup_map_Some, Hc1|exact Hc2].
  destruct (cargar_turnos_filas py_int (turnos self) Dict.empty 0 Hint)
    as [mx E];
    [change (Dict.empty ++ crudo_turnos (turnos self))%list
       with (crudo_turnos (turnos self));
     rewrite keys_crudo_turnos; exact Ht1|exact Ht2|].
  cbn [bind]. rewrite E. cbn [bind fst snd app Dict.empty].
  eexists. reflexivity.
Qed.

(** C3, as the code has it.  For an instance in which no field holds
    [None] and whose dicts are keyed by the records' own identifiers (DNI,
    id_turno), [guardar_datos] writes the rows of its records, and building
    a fresh [Peluqueria] from the two files succeeds and gives back the
    same clients and the same appointments, field for field (and here in
    the same order).  [int] is assumed to read back what [str] writes. *)
Theorem guardar_cargar (py_int : string -> option Z) (self : Peluqueria)
  (m : Mundo) :
  (forall z, py_int (py_str z) = Some z) ->
  bien_formado self ->
  disco (guardar_datos self m) = archivos_de_py (crudo self) /\
  exists self',
    Peluqueria_init py_int (disco (guardar_datos self m)) = Ok self' /\
    py_clientes self' = py_clientes (crudo self) /\
    py_turnos self' = py_turnos (crudo self).
Proof.
  intros Hint Hwf. split.
  - symmetry. apply archivos_de_crudo.
  - destruct (cargar_guardado py_int self Hint Hwf) as [n E].
    cbn [guardar_datos disco]. rewrite E.
    eexists. repeat split.
Qed.

Lemma guardar_cargar_witness :
  exists self',
    Peluqueria_init ej_int (disco (guardar_datos (sistema ej_mundo3) ej_mundo3))
    = Ok self' /\
    py_clientes self' = py_clientes (crudo (sistema ej_mundo3)) /\
    py_turnos self' = py_turnos (crudo (sistema ej_mundo3)).
Proof.
  apply (guardar_cargar ej_int (sistema ej_mundo3) ej_mundo3 ej_int_py_str).
  repeat split; simpl; repeat constructor; simpl; intuition discriminate.
Defined.

(** C3, as the claim has it, fails, also when the order of the entries is
    left aside.  The client file whose only row is [123] loads: the client
    is stored with [None] for its name and its telephone.  [guardar_datos]
    writes it as the row [123,,], which loads as a client whose name and
    telephone are the empty text. *)
Lemma guardar_cargar_contraejemplo :
  Peluqueria_init ej_int ej_disco_corto = Ok ej_sistema_corto
  /\ bien_formado_py ej_sistema_corto
  /\ archivos_de_py ej_sistema_corto
    = mk_Disco (Some [fieldnames_clientes; ["123"; EmptyString; EmptyString]])
               (Some [fieldnames_turnos])
  /\ Peluqueria_init ej_int (archivos_de_py ej_sistema_corto)
    = Ok (mk_PeluqueriaPy
            [(Some "123",
              mk_ClientePy (Some "123") (Some EmptyString) (Some EmptyString))]
            [] 1)
  /\ ~ (forall self : PeluqueriaPy,
          bien_formado_py self ->
          exists self',
            Peluqueria_init ej_int (archivos_de_py self) = Ok self' /\
            (forall k, Dict.get clave_dec k (py_clientes self')
                       = Dict.get clave_dec k (py_clientes self)) /\
            (forall id, Dict.get Z.eq_dec id (py_turnos self')
                        = Dict.get Z.eq_dec id (py_turnos self))).
Proof.
  split; [reflexivity|]. split.
  { repeat split; simpl; repeat constructor; simpl; tauto. }
  split; [reflexivity|]. split; [reflexivity|].
  intros H. destruct (H ej_sistema_corto) as (self' & E & Hc & _).
  { repeat split; simpl; repeat constructor; simpl; tauto. }
  vm_compute in E. injection E as <-.
  specialize (Hc (Some "123")). vm_compute in Hc. discriminate Hc.
Qed.

(** ** The counter after loading *)



Lemma max0_cota (l : list Z) : 0 <= max0 l /\ forall z, In z l -> z <= max0 l.
Proof.
  induction l as [|a l [IH0 IH]]; simpl.
  - split; [lia|tauto].
  - fold (max0 l). split; [lia|]. intros z [->|Hz]; [lia|].
    specialize (IH z Hz). lia.
Qed.







(** ** The worked example of the specification *)

(** Client 123 books 2024-05-01 10:00 and gets identifier 1; a second
    booking of the slot is refused; after cancelling 1 the slot is booked
    again, with identifier 2. *)
Example ejemplo_reserva_cancelacion :
  snd (ejecutar [Registrar "123" "Ana" "555";
                 Solicitar "123" ej_fecha ej_hora "cut";
                 Solicitar "123" ej_fecha ej_hora "color";
                 Modificar (Some 1) CancelarTurno;
                 Solicitar "123" ej_fecha ej_hora "color"] mundo_inicial)
  = [ClienteRegistrado; TurnoRegistrado 1; TurnoOcupado; TurnoActualizado;
     TurnoRegistrado 2].
Proof. reflexivity. Qed.

Example ejemplo_textos :
  isoformat ej_fecha = "2024-05-01" /\ strftime_HM (mk_time 9 5) = "09:05"
  /\ map ej_int ["12"; "-7"; "007"] = [Some 12; Some (-7); Some 7]
  /\ map py_str [0; 15; -203] = ["0"; "15"; "-203"].
Proof. repeat split. Qed.

(* ------------------------------------------------------------------ *)
(** * Further properties of the code *)

(** ** Rounds of the menu as transitions *)

Lemma ejecutar_opcion_forma (e : Entrada) (m : Mundo) :
  fst (ejecutar_opcion e m) = m \/
  exists self', transicion (sistema m) self' /\
                fst (ejecutar_opcion e m) = guardar_datos self' m.
Proof.
  destruct e as [d n t|d f h s|flt|i op| |]; simpl; auto.
  - unfold registrar_cliente.
    destruct (Dict.mem string_dec d (clientes (sistema m))) eqn:Hm; auto.
    right. eexists. split; [apply (tr_registrar _ d n t Hm)|reflexivity].
  - unfold solicitar_turno.
    destruct (Dict.is_empty (clientes (sistema m))); auto.
    destruct (Dict.mem string_dec d (clientes (sistema m))) eqn:Hm; auto.
    cbn [negb].
    destruct (turno_ocupado (sistema m) f h) eqn:Ho; auto.
    right. eexists. split; [apply (tr_solicitar _ d f h s Hm Ho)|reflexivity].
  - unfold modificar_o_cancelar_turno.
    destruct (Dict.is_empty (turnos (sistema m))); auto.
    destruct i as [id|]; auto.
    destruct (get_turno id (turnos (sistema m))) as [t|] eqn:Hg; auto.
    destruct op as [f h|s| |]; auto.
    + destruct (turno_ocupado (sistema m) f h) eqn:Ho; auto.
      right. eexists. split; [|reflexivity].
      apply (tr_modificar _ id t _ Hg). apply c_slot, Ho.
    + right. eexists. split; [|reflexivity].
      apply (tr_modificar _ id t _ Hg). apply c_servicio.
    + right. eexists. split; [|reflexivity].
      apply (tr_modificar _ id t _ Hg). apply c_cancelar.
  - right. exists (sistema m). split; [constructor|reflexivity].
Qed.

(** A property of the instance kept by every transition is kept by every
    run of the menu. *)
Lemma ejecutar_mantiene (P : Peluqueria -> Prop) :
  (forall s s', transicion s s' -> P s -> P s') ->
  forall es m, P (sistema m) -> P (sistema (fst (ejecutar es m))).
Proof.
  intros Hstep es. induction es as [|e es IH]; intros m HP; simpl; trivial.
  assert (H1 : P (sistema (fst (ejecutar_opcion e m)))).
  { destruct (ejecutar_opcion_forma e m) as [E|[s' [Ht E]]]; rewrite E;
      [exact HP|]. simpl. eapply Hstep; eauto. }
  destruct (ejecutar_opcion e m) as [m1 msg]. simpl in H1.
  specialize (IH m1 H1). destruct (ejecutar es m1) as [m2 msgs]. exact IH.
Qed.

(** A reflexive and transitive relation between instances that every
    transition satisfies relates the two ends of every run. *)
Lemma ejecutar_relaciona (R : Peluqueria -> Peluqueria -> Prop) :
  (forall s, R s s) ->
  (forall s1 s2 s3, R s1 s2 -> R s2 s3 -> R s1 s3) ->
  (forall s s', transicion s s' -> R s s') ->
  forall es m, R (sistema m) (sistema (fst (ejecutar es m))).
Proof.
  intros Hrefl Htrans Hstep es.
  induction es as [|e es IH]; intros m; simpl; [apply Hrefl|].
  assert (H1 : R (sistema m) (sistema (fst (ejecutar_opcion e m)))).
  { destruct (ejecutar_opcion_forma e m) as [E|[s' [Ht E]]]; rewrite E;
      [apply Hrefl|]. simpl. apply Hstep, Ht. }
  destruct (ejecutar_opcion e m) as [m1 msg]. simpl in H1.
  specialize (IH m1). destruct (ejecutar es m1) as [m2 msgs]. simpl in *.
  eapply Htrans; eauto.
Qed.

(** ** The counter and the stored identifiers *)

Lemma max0_keys_set {V} (k : Z) (v : V) (d : Dict.t) :
  max0 (Dict.keys (Dict.set Z.eq_dec k v d)) = Z.max k (max0 (Dict.keys d)).
Proof.
  induction d as [|[k' v'] r IH]; simpl.
  - reflexivity.
  - destruct (Z.eq_dec k k') as [E|N]; simpl.
    + subst k'. fold (max0 (Dict.keys r)). lia.
    + fold (max0 (Dict.keys (Dict.set Z.eq_dec k v r))).
      fold (max0 (Dict.keys r)). rewrite IH. lia.
Qed.

Lemma contador_ajustado_frescos (self : Peluqueria) :
  contador_ajustado self -> ids_frescos self.
Proof.
  unfold contador_ajustado, ids_frescos. intros H.
  apply Forall_forall. intros k Hk.
  pose proof (proj2 (max0_cota (Dict.keys (turnos self))) k Hk). lia.
Qed.

Lemma contador_ajustado_transicion (s s' : Peluqueria) :
  transicion s s' -> contador_ajustado s -> contador_ajustado s'.
Proof.
  unfold contador_ajustado.
  intros [ |d n t Hm|d f h sv Hm Ho|id t t' Hg Hc] H;
    cbn [next_id turnos]; trivial.
  - unfold set_turno. rewrite max0_keys_set.
    pose proof (max0_cota (Dict.keys (turnos s))). lia.
  - unfold set_turno.
    rewrite (keys_set_present Z.eq_dec id t' t _ Hg). exact H.
Qed.

Lemma cargar_turnos_contador py_int rows (ts ts' : Dict.t) (mx mx' : Z) :
  mx = max0 (Dict.keys ts) ->
  cargar_turnos py_int rows ts mx = Ok (ts', mx') ->
  mx' = max0 (Dict.keys ts').
Proof.
  revert ts mx. induction rows as [|row rows IH]; intros ts mx Hmx;
    cbn [cargar_turnos].
  - intros H. injection H as <- <-. exact Hmx.
  - destruct (leer_turno py_int row) as [t|]; [|discriminate]. cbn [bind].
    apply IH. rewrite max0_keys_set. subst mx.
    destruct (Z.gtb_spec (py_id_turno t) (max0 (Dict.keys ts))); lia.
Qed.

Lemma contador_ajustado_py_init py_int (d : Disco) (self : PeluqueriaPy) :
  Peluqueria_init py_int d = Ok self ->
  py_next_id self = 1 + max0 (Dict.keys (py_turnos self)).
Proof.
  unfold Peluqueria_init, cargar_datos. intros H.
  destruct (match CLIENTES_FILE d with Some _ => _ | None => _ end)
    as [cs|]; [|discriminate]. cbn [bind] in H.
  destruct (TURNOS_FILE d) as [f|].
  - destruct (cargar_turnos _ _ _ _) as [[ts mx]|] eqn:E; [|discriminate].
    cbn [bind fst snd] in H. injection H as <-. cbn [py_next_id py_turnos].
    apply cargar_turnos_contador in E; [|reflexivity]. lia.
  - injection H as <-. reflexivity.
Qed.

Lemma contador_ajustado_init py_int (d : Disco) (self : Peluqueria) :
  Peluqueria_init py_int d = Ok (crudo self) -> contador_ajustado self.
Proof.
  intros H. apply contador_ajustado_py_init in H.
  unfold contador_ajustado. cbn [crudo py_next_id py_turnos] in H.
  rewrite keys_crudo_turnos in H. exact H.
Qed.

(** X1. After a load that succeeds, whatever the files hold, the counter
    is one more than the largest of 0 and the loaded identifiers.  When the
    loaded instance has no [None] field, this stays so through whatever
    rounds of the menu follow; every stored identifier is then below the
    identifier that the next booking will use. *)
Theorem contador_sobre_ids (py_int : string -> option Z) (d : Disco)
  (self0 : PeluqueriaPy) :
  Peluqueria_init py_int d = Ok self0 ->
  py_next_id self0 = 1 + max0 (Dict.keys (py_turnos self0)) /\
  forall (self : Peluqueria) (es : list Entrada),
    self0 = crudo self ->
    let s := sistema (fst (ejecutar es (mk_Mundo self d 0))) in
    next_id s = 1 + max0 (Dict.keys (turnos s)) /\
    forall id, In id (Dict.keys (turnos s)) -> id < next_id s.
Proof.
  intros H. split; [apply (contador_ajustado_py_init py_int d), H|].
  intros self es -> s.
  assert (Hc : contador_ajustado s).
  { apply (ejecutar_mantiene contador_ajustado contador_ajustado_transicion).
    apply (contador_ajustado_init py_int d). exact H. }
  split; [exact Hc|].
  apply Forall_forall. apply contador_ajustado_frescos, Hc.
Qed.

Lemma contador_sobre_ids_witness :
  let r := ejecutar [Solicitar "123" ej_fecha (mk_time 11 0) "cut";
                     Modificar (Some 1) CancelarTurno] ej_mundo_doble in
  snd r = [TurnoRegistrado 3; TurnoActualizado] /\
  next_id (sistema (fst r)) = 1 + max0 (Dict.keys (turnos (sistema (fst r)))).
Proof.
  intros r. split; [reflexivity|].
  destruct (contador_sobre_ids ej_int ej_disco_doble (crudo ej_sistema_doble)
              eq_refl) as [_ H].
  apply (H ej_sistema_doble
           [Solicitar "123" ej_fecha (mk_time 11 0) "cut";
            Modificar (Some 1) CancelarTurno] eq_refl).
Defined.

Lemma ids_frescos_transicion (s s' : Peluqueria) :
  transicion s s' -> ids_frescos s -> ids_frescos s'.
Proof.
  unfold ids_frescos.
  intros [ |d n t Hm|d f h sv Hm Ho|id t t' Hg Hc] H;
    cbn [next_id turnos]; trivial.
  - apply Forall_forall. intros k Hk.
    apply keys_set_In in Hk as [->|Hk]; [lia|].
    rewrite Forall_forall in H. specialize (H k Hk). lia.
  - unfold set_turno.
    rewrite (keys_set_present Z.eq_dec id t' t _ Hg). exact H.
Qed.

Lemma ids_frescos_libre (self : Peluqueria) :
  ids_frescos self -> get_turno (next_id self) (turnos self) = None.
Proof.
  unfold ids_frescos. intros H. apply get_None_keys. intros Hin.
  rewrite Forall_forall in H. specialize (H _ Hin). lia.
Qed.

(** X2. When every stored identifier is below the counter (as it is after
    any load and any run), an accepted booking adds one entry at the end of
    the appointment dict, under the old counter value, and leaves every
    entry that was there as it was: no booking overwrites an appointment. *)
Theorem solicitar_turno_agrega (dni : string) (f : date) (h : time)
  (s : string) (m : Mundo) :
  ids_frescos (sistema m) ->
  Dict.mem string_dec dni (clientes (sistema m)) = true ->
  turno_ocupado (sistema m) f h = false ->
  turnos (sistema (fst (solicitar_turno dni f h s m)))
  = (turnos (sistema m)
     ++ [(next_id (sistema m),
          mk_Turno (next_id (sistema m)) dni (isoformat f) (strftime_HM h)
                   s ACTIVO)])%list.
Proof.
  intros Hf Hm Ho. unfold solicitar_turno.
  rewrite (mem_true_not_empty _ _ _ Hm), Hm, Ho.
  cbn [negb fst sistema guardar_datos turnos id_turno].
  apply set_absent, ids_frescos_libre, Hf.
Qed.

Lemma solicitar_turno_agrega_witness :
  turnos (sistema (fst (solicitar_turno "123" ej_fecha (mk_time 11 0) "color" ej_mundo2)))
  = (turnos (sistema ej_mundo2)
     ++ [(2, mk_Turno 2 "123" "2024-05-01" "11:00" "color" ACTIVO)])%list.
Proof.
  apply (solicitar_turno_agrega "123" ej_fecha (mk_time 11 0) "color" ej_mundo2).
  - repeat constructor.
  - reflexivity.
  - reflexivity.
Defined.

(** ** Restarting the program *)

Lemma ejecutar_mantiene_mundo (P : Mundo -> Prop) :
  (forall e m, P m -> P (fst (ejecutar_opcion e m))) ->
  forall es m, P m -> P (fst (ejecutar es m)).
Proof.
  intros Hstep es. induction es as [|e es IH]; intros m HP; simpl; trivial.
  specialize (Hstep e m HP).
  destruct (ejecutar_opcion e m) as [m1 msg]. simpl in Hstep.
  specialize (IH m1 Hstep). destruct (ejecutar es m1) as [m2 msgs]. exact IH.
Qed.

(** Loading the files that [guardar_datos] writes gives back the instance,
    counter included. *)
Lemma init_archivos_de py_int (self : Peluqueria) :
  (forall z, py_int (py_str z) = Some z) ->
  bien_formado self -> contador_ajustado self ->
  Peluqueria_init py_int (archivos_de self) = Ok (crudo self).
Proof.
  intros Hint Hwf Hn.
  destruct (cargar_guardado py_int self Hint Hwf) as [n E].
  pose proof (contador_ajustado_py_init _ _ _ E) as Hc.
  cbn [py_next_id py_turnos] in Hc. rewrite keys_crudo_turnos in Hc.
  unfold contador_ajustado in Hn. rewrite E. unfold crudo.
  do 2 f_equal. lia.
Qed.

Lemma recuperable_opcion py_int (e : Entrada) (m : Mundo) :
  (forall z, py_int (py_str z) = Some z) ->
  recuperable py_int m -> recuperable py_int (fst (ejecutar_opcion e m)).
Proof.
  intros Hint (Hwf & Hn & Hi).
  pose proof (bien_formado_opcion e m Hwf) as Hwf'.
  destruct (ejecutar_opcion_forma e m) as [E|[s' [Ht E]]].
  - rewrite E. split; [|split]; assumption.
  - rewrite E in Hwf' |- *. simpl in Hwf'.
    pose proof (contador_ajustado_transicion _ _ Ht Hn) as Hn'.
    split; [|split]; trivial. simpl. apply init_archivos_de; assumption.
Qed.

Lemma recuperable_init py_int (d : Disco) (self : Peluqueria) :
  Peluqueria_init py_int d = Ok (crudo self) ->
  recuperable py_int (mk_Mundo self d 0).
Proof.
  intros H. split; [|split]; simpl.
  - apply (bien_formado_init py_int d). exact H.
  - apply (contador_ajustado_init py_int d). exact H.
  - exact H.
Qed.

(** X3. When the files load to an instance without [None] fields, stopping
    the program after any run of the menu and starting it again gives back
    exactly the instance it had: the clients, the appointments (in the same
    order) and the counter, whether or not a round of the run saved
    anything.  [int] is assumed to read back what [str] writes. *)
Theorem reinicio_conserva (py_int : string -> option Z) (d : Disco)
  (self : Peluqueria) (es : list Entrada) :
  (forall z, py_int (py_str z) = Some z) ->
  Peluqueria_init py_int d = Ok (crudo self) ->
  let m := fst (ejecutar es (mk_Mundo self d 0)) in
  Peluqueria_init py_int (disco m) = Ok (crudo (sistema m)).
Proof.
  intros Hint H m.
  assert (HJ : recuperable py_int m).
  { apply (ejecutar_mantiene_mundo (recuperable py_int)
             (fun e m => recuperable_opcion py_int e m Hint)).
    apply recuperable_init, H. }
  destruct HJ as (_ & _ & HJ). exact HJ.
Qed.

Lemma reinicio_conserva_witness :
  let m := fst (ejecutar [Solicitar "123" ej_fecha (mk_time 11 0) "cut";
                          Modificar (Some 1) CancelarTurno]
                         ej_mundo_doble) in
  Peluqueria_init ej_int (disco m) = Ok (crudo (sistema m)).
Proof.
  intros m.
  apply (reinicio_conserva ej_int ej_disco_doble ej_sistema_doble _
           ej_int_py_str eq_refl).
Defined.

(** ** Nothing is removed *)

Lemma prefijo_refl {A} (l : list A) : prefijo l l.
Proof. exists []. rewrite app_nil_r. reflexivity. Qed.

Lemma prefijo_trans {A} (l1 l2 l3 : list A) :
  prefijo l1 l2 -> prefijo l2 l3 -> prefijo l1 l3.
Proof.
  intros [r1 ->] [r2 ->]. exists (r1 ++ r2)%list. rewrite app_assoc.
  reflexivity.
Qed.

Section DictPrefijo.
Context {K V : Type}.
Variable K_dec : forall a b : K, {a = b} + {a <> b}.

Lemma get_app_l (k : K) (v : V) (d r : Dict.t) :
  Dict.get K_dec k d = Some v -> Dict.get K_dec k (d ++ r)%list = Some v.
Proof.
  induction d as [|[k' v'] d IH]; simpl; [discriminate|].
  destruct (K_dec k k'); auto.
Qed.

Lemma get_app_r (k : K) (d r : Dict.t (V:=V)) :
  Dict.get K_dec k d = None ->
  Dict.get K_dec k (d ++ r)%list = Dict.get K_dec k r.
Proof.
  induction d as [|[k' v'] d IH]; simpl; [reflexivity|].
  destruct (K_dec k k'); [discriminate|auto].
Qed.

Lemma keys_set_prefijo (k : K) (v : V) (d : Dict.t) :
  prefijo (Dict.keys d) (Dict.keys (Dict.set K_dec k v d)).
Proof.
  destruct (Dict.get K_dec k d) as [v0|] eqn:Hg.
  - rewrite (keys_set_present K_dec k v v0 d Hg). apply prefijo_refl.
  - rewrite (set_absent K_dec k v d Hg). exists [k].
    unfold Dict.keys. rewrite map_app. reflexivity.
Qed.
End DictPrefijo.

Lemma mem_false_get {V} (k : string) (d : Dict.t (V:=V)) :
  Dict.mem string_dec k d = false -> Dict.get string_dec k d = None.
Proof. unfold Dict.mem. destruct (Dict.get string_dec k d); [discriminate|trivial]. Qed.

(** X4. No round of the menu removes or alters a client, or removes an
    appointment: after any run the client dict is the old one with new
    clients added at its end, every client found before is found unchanged,
    and the appointment identifiers are the old ones, in the same order,
    with new ones added at the end. *)
Theorem nada_se_borra (es : list Entrada) (m : Mundo) :
  let s := sistema m in
  let s' := sistema (fst (ejecutar es m)) in
  prefijo (clientes s) (clientes s') /\
  (forall d c, get_cliente d (clientes s) = Some c ->
               get_cliente d (clientes s') = Some c) /\
  prefijo (Dict.keys (turnos s)) (Dict.keys (turnos s')).
Proof.
  intros s s'.
  assert (H : prefijo (clientes s) (clientes s') /\
              prefijo (Dict.keys (turnos s)) (Dict.keys (turnos s'))).
  { subst s s'.
    apply (ejecutar_relaciona
             (fun a b => prefijo (clientes a) (clientes b) /\
                         prefijo (Dict.keys (turnos a)) (Dict.keys (turnos b)))).
    - intros a. split; apply prefijo_refl.
    - intros a b c [H1 H2] [H3 H4]. split; eapply prefijo_trans; eauto.
    - intros a b [ |d n t Hm|d f h sv Hm Ho|id t t' Hg Hc];
        cbn [clientes turnos]; split; try apply prefijo_refl.
      + unfold set_cliente.
        rewrite (set_absent _ _ _ _ (mem_false_get _ _ Hm)).
        eexists. reflexivity.
      + apply keys_set_prefijo.
      + apply keys_set_prefijo. }
  destruct H as [[r Hr] H2]. split; [exists r; exact Hr|]. split; [|exact H2].
  intros d c Hg. rewrite Hr. apply get_app_l, Hg.
Qed.

(** ** What happens to a stored appointment *)

(** X5. When every stored identifier is below the counter, an appointment
    found under an identifier is still found under it after any run of the
    menu, with the same [id_turno] and the same client, and its estado is
    either the one it had or CANCELADO: a cancelled appointment is never
    made active again. *)
Theorem turno_permanece (es : list Entrada) (m : Mundo) (id : Z) (t : Turno) :
  ids_frescos (sistema m) ->
  get_turno id (turnos (sistema m)) = Some t ->
  exists t',
    get_turno id (turnos (sistema (fst (ejecutar es m)))) = Some t' /\
    id_turno t' = id_turno t /\
    dni_cliente t' = dni_cliente t /\
    (estado t' = estado t \/ estado t' = CANCELADO).
Proof.
  intros Hf Hg.
  set (R := fun a b : Peluqueria =>
              ids_frescos a ->
              ids_frescos b /\
              forall id t, get_turno id (turnos a) = Some t ->
                exists t', get_turno id (turnos b) = Some t' /\
                           id_turno t' = id_turno t /\
                           dni_cliente t' = dni_cliente t /\
                           (estado t' = estado t \/ estado t' = CANCELADO)).
  assert (HR : R (sistema m) (sistema (fst (ejecutar es m)))).
  { apply (ejecutar_relaciona R); unfold R; clear.
    - intros a Ha. split; [exact Ha|]. intros id t Hg. exists t. auto.
    - intros a b c Hab Hbc Ha.
      destruct (Hab Ha) as [Hb Hab']. destruct (Hbc Hb) as [Hc Hbc'].
      split; [exact Hc|]. intros id t Hg.
      destruct (Hab' id t Hg) as (t1 & Hg1 & E1 & E2 & E3).
      destruct (Hbc' id t1 Hg1) as (t2 & Hg2 & F1 & F2 & F3).
      exists t2. repeat split; try congruence.
      destruct F3 as [F3|F3]; [|auto]. rewrite F3. exact E3.
    - intros a b Ht Ha. split; [eapply ids_frescos_transicion; eauto|].
      intros id t Hg.
      destruct Ht as [ |d n c Hm|d f h sv Hm Ho|id0 t0 t0' Hg0 Hc];
        cbn [turnos].
      + exists t. auto.
      + exists t. auto.
      + exists t. split; [|auto]. unfold set_turno.
        rewrite (set_absent _ _ _ _ (ids_frescos_libre _ Ha)).
        apply get_app_l, Hg.
      + destruct (Z.eq_dec id id0) as [->|N].
        * exists t0'. split; [apply get_set_eq|].
          assert (t0 = t) by congruence. subst t0.
          destruct Hc; simpl; auto.
        * exists t. split; [|auto].
          unfold set_turno, get_turno. rewrite get_set_neq; assumption. }
  destruct (HR Hf) as [_ H]. apply H, Hg.
Qed.

Lemma turno_permanece_witness :
  exists t',
    get_turno 1 (turnos (sistema (fst (ejecutar
        [Solicitar "123" ej_fecha ej_hora "color";
         Modificar (Some 1) (ModificarServicio "peinado")] ej_mundo3)))) = Some t' /\
    id_turno t' = 1 /\ dni_cliente t' = "123" /\
    (estado t' = CANCELADO \/ estado t' = CANCELADO).
Proof.
  apply (turno_permanece _ ej_mundo3 1
           (mk_Turno 1 "123" "2024-05-01" "10:00" "cut" CANCELADO)).
  - repeat constructor.
  - reflexivity.
Defined.

(** ** Bookings and slots *)

Lemma activo_en_nuevo (f h f' h' d s : string) (n : Z) :
  activo_en f' h' (mk_Turno n d f h s ACTIVO) = true <-> f = f' /\ h = h'.
Proof.
  unfold activo_en. cbn [estado fecha hora]. rewrite String.eqb_refl.
  cbn [andb]. rewrite andb_true_iff, !String.eqb_eq. tauto.
Qed.

(** X6. When every stored identifier is below the counter, an accepted
    booking takes its own slot and no other: afterwards [turno_ocupado] is
    true for the date and time booked, a further booking of them is
    refused, and for any other valid date and time the answer of
    [turno_ocupado] is what it was. *)
Theorem solicitar_turno_ocupa (dni : string) (f : date) (h : time)
  (s : string) (m : Mundo) :
  ids_frescos (sistema m) ->
  Dict.mem string_dec dni (clientes (sistema m)) = true ->
  turno_ocupado (sistema m) f h = false ->
  date_valid f = true -> time_valid h = true ->
  let m' := fst (solicitar_turno dni f h s m) in
  turno_ocupado (sistema m') f h = true /\
  (forall dni' s', Dict.mem string_dec dni' (clientes (sistema m')) = true ->
     solicitar_turno dni' f h s' m' = (m', TurnoOcupado)) /\
  (forall f' h', date_valid f' = true -> time_valid h' = true ->
     (f', h') <> (f, h) ->
     turno_ocupado (sistema m') f' h' = turno_ocupado (sistema m) f' h').
Proof.
  intros Hfr Hm Ho Vf Vh m'.
  assert (Hocc : forall f' h',
             turno_ocupado (sistema m') f' h'
             = turno_ocupado (sistema m) f' h'
               || activo_en (isoformat f') (strftime_HM h')
                    (mk_Turno (next_id (sistema m)) dni (isoformat f)
                       (strftime_HM h) s ACTIVO)).
  { intros f' h'. unfold turno_ocupado. subst m'. unfold solicitar_turno.
    rewrite (mem_true_not_empty _ _ _ Hm), Hm, Ho.
    cbn [negb fst sistema guardar_datos turnos id_turno].
    unfold set_turno.
    rewrite (set_absent _ _ _ _ (ids_frescos_libre _ Hfr)).
    unfold Dict.values. rewrite map_app, existsb_app. cbn [map existsb snd].
    rewrite orb_false_r. reflexivity. }
  assert (H1 : turno_ocupado (sistema m') f h = true).
  { rewrite Hocc. apply orb_true_iff. right. apply activo_en_nuevo. auto. }
  split; [exact H1|]. split.
  - intros dni' s' Hm'. unfold solicitar_turno.
    rewrite (mem_true_not_empty _ _ _ Hm'), Hm', H1. reflexivity.
  - intros f' h' Vf' Vh' Hne. rewrite Hocc.
    destruct (activo_en _ _ _) eqn:Ha; [|apply orb_false_r].
    apply activo_en_nuevo in Ha as [E1 E2].
    apply isoformat_inj in E1; trivial.
    apply strftime_HM_inj in E2; trivial.
    exfalso. apply Hne. congruence.
Qed.

Lemma solicitar_turno_ocupa_witness :
  let m' := fst (solicitar_turno "123" ej_fecha ej_hora "cut" ej_mundo1) in
  turno_ocupado (sistema m') ej_fecha ej_hora = true /\
  turno_ocupado (sistema m') ej_fecha (mk_time 10 30)
  = turno_ocupado (sistema ej_mundo1) ej_fecha (mk_time 10 30).
Proof.
  intros m'.
  destruct (solicitar_turno_ocupa "123" ej_fecha ej_hora "cut" ej_mundo1)
    as (H1 & _ & H3); try reflexivity.
  - constructor.
  - split; [exact H1|]. apply H3; try reflexivity. discriminate.
Defined.

(** X7. Moving an active appointment that is alone in its slot to a free
    date and time is accepted, takes the new slot and frees the old one:
    afterwards [turno_ocupado] is true for the new date and time and false
    for the old ones, and the appointment carries the new texts. *)
Theorem reprogramar_mueve (m : Mundo) (id : Z)
  (turno : Turno) (f0 f : date) (h0 h : time) :
  get_turno id (turnos (sistema m)) = Some turno ->
  estado turno = ACTIVO ->
  fecha turno = isoformat f0 ->
  hora turno = strftime_HM h0 ->
  (activos_en (isoformat f0) (strftime_HM h0) (sistema m) <= 1)%nat ->
  turno_ocupado (sistema m) f h = false ->
  let r := modificar_o_cancelar_turno (Some id) (ModificarFechaHora f h) m in
  snd r = TurnoActualizado /\
  get_turno id (turnos (sistema (fst r)))
    = Some (con_slot (isoformat f) (strftime_HM h) turno) /\
  turno_ocupado (sistema (fst r)) f h = true /\
  turno_ocupado (sistema (fst r)) f0 h0 = false.
Proof.
  intros Hg He Hf0 Hh0 Huno Ho r.
  assert (Hne : Dict.is_empty (turnos (sistema m)) = false).
  { destruct (turnos (sistema m)); [discriminate|reflexivity]. }
  set (t' := con_slot (isoformat f) (strftime_HM h) turno).
  assert (Hr : r = (guardar_datos
                      (mk_Peluqueria (clientes (sistema m))
                         (set_turno id t' (turnos (sistema m)))
                         (next_id (sistema m))) m, TurnoActualizado)).
  { subst r. unfold modificar_o_cancelar_turno. rewrite Hne, Hg, Ho.
    reflexivity. }
  assert (Hviejo : activo_en (isoformat f0) (strftime_HM h0) turno = true).
  { unfold activo_en. rewrite He, Hf0, Hh0, !String.eqb_refl. reflexivity. }
  assert (Hnuevo : activo_en (isoformat f) (strftime_HM h) t' = true).
  { unfold activo_en, t'. cbn [estado fecha hora con_slot].
    rewrite He, !String.eqb_refl. reflexivity. }
  assert (Hlibre : activo_en (isoformat f) (strftime_HM h) turno = false).
  { destruct (activo_en (isoformat f) (strftime_HM h) turno) eqn:Ha; trivial.
    apply (activo_en_otro_slot (fecha turno) (hora turno)) in Ha
      as [E1 E2]; try reflexivity.
    rewrite (turno_ocupado_por (sistema m) id turno f h Hg He) in Ho;
      [discriminate|congruence|congruence]. }
  assert (Hdist : activo_en (isoformat f0) (strftime_HM h0) t' = false).
  { destruct (activo_en (isoformat f0) (strftime_HM h0) t') eqn:Ha; trivial.
    apply (activo_en_otro_slot (isoformat f) (strftime_HM h)) in Ha
      as [E1 E2]; try reflexivity.
    rewrite E1, E2 in Hviejo. congruence. }
  rewrite Hr. cbn [fst snd sistema guardar_datos].
  set (s1 := mk_Peluqueria (clientes (sistema m))
               (set_turno id t' (turnos (sistema m))) (next_id (sistema m))).
  split; [reflexivity|]. split; [apply get_set_eq|]. split.
  - destruct (turno_ocupado s1 f h) eqn:Hx; trivial.
    apply turno_ocupado_activos in Hx. unfold activos_en in Hx.
    cbn [turnos s1] in Hx.
    pose proof (count_set_present Z.eq_dec
                  (activo_en (isoformat f) (strftime_HM h)) id t' turno
                  (turnos (sistema m)) Hg) as Heq.
    fold set_turno in Heq. rewrite Hnuevo, Hlibre, Hx in Heq.
    simpl in Heq. lia.
  - apply turno_ocupado_activos. unfold activos_en in *. cbn [turnos s1].
    pose proof (count_set_present Z.eq_dec
                  (activo_en (isoformat f0) (strftime_HM h0)) id t' turno
                  (turnos (sistema m)) Hg) as Heq.
    fold set_turno in Heq. rewrite Hviejo, Hdist in Heq.
    simpl in Heq. lia.
Qed.

Lemma reprogramar_mueve_witness :
  let r := modificar_o_cancelar_turno (Some 1)
             (ModificarFechaHora ej_fecha (mk_time 11 0)) ej_mundo2 in
  snd r = TurnoActualizado /\
  turno_ocupado (sistema (fst r)) ej_fecha (mk_time 11 0) = true /\
  turno_ocupado (sistema (fst r)) ej_fecha ej_hora = false.
Proof.
  intros r.
  destruct (reprogramar_mueve ej_mundo2 1
              (mk_Turno 1 "123" "2024-05-01" "10:00" "cut" ACTIVO)
              ej_fecha ej_fecha ej_hora (mk_time 11 0))
    as (H1 & _ & H3 & H4); try reflexivity.
  repeat split; assumption.
Defined.

(** ** Modifications *)

(** X8. Cancelling is idempotent on the data: cancelling an appointment a
    second time is accepted again and leaves the instance and the contents
    of both files exactly as the first cancellation left them. *)
Theorem cancelar_idempotente (m : Mundo) (id : Z) (turno : Turno) :
  get_turno id (turnos (sistema m)) = Some turno ->
  let r1 := modificar_o_cancelar_turno (Some id) CancelarTurno m in
  let r2 := modificar_o_cancelar_turno (Some id) CancelarTurno (fst r1) in
  snd r1 = TurnoActualizado /\ snd r2 = TurnoActualizado /\
  sistema (fst r2) = sistema (fst r1) /\
  disco (fst r2) = disco (fst r1).
Proof.
  intros Hg r1 r2.
  assert (Hne : Dict.is_empty (turnos (sistema m)) = false).
  { destruct (turnos (sistema m)); [discriminate|reflexivity]. }
  set (t1 := con_estado CANCELADO turno).
  set (s1 := mk_Peluqueria (clientes (sistema m))
               (set_turno id t1 (turnos (sistema m))) (next_id (sistema m))).
  assert (Hr1 : r1 = (guardar_datos s1 m, TurnoActualizado)).
  { subst r1. unfold modificar_o_cancelar_turno. rewrite Hne, Hg.
    reflexivity. }
  assert (Hg1 : get_turno id (turnos s1) = Some t1) by apply get_set_eq.
  assert (Hne1 : Dict.is_empty (turnos s1) = false).
  { destruct (turnos s1); [discriminate|reflexivity]. }
  assert (Hr2 : r2 = (guardar_datos s1 (fst r1), TurnoActualizado)).
  { subst r2. rewrite Hr1. cbn [fst]. unfold modificar_o_cancelar_turno.
    cbn [sistema guardar_datos]. rewrite Hne1, Hg1.
    replace (con_estado CANCELADO t1) with t1 by reflexivity.
    unfold set_turno at 1. rewrite (set_get_same Z.eq_dec id t1 _ Hg1).
    rewrite self_eta. reflexivity. }
  rewrite Hr2, Hr1. repeat split.
Qed.

Lemma cancelar_idempotente_witness :
  let r1 := modificar_o_cancelar_turno (Some 1) CancelarTurno ej_mundo2 in
  let r2 := modificar_o_cancelar_turno (Some 1) CancelarTurno (fst r1) in
  sistema (fst r2) = sistema (fst r1).
Proof.
  intros r1 r2.
  apply (cancelar_idempotente ej_mundo2 1
           (mk_Turno 1 "123" "2024-05-01" "10:00" "cut" ACTIVO)
           eq_refl).
Defined.

(** X9. A round of [modificar_o_cancelar_turno], accepted or not, touches
    nothing but the appointment named: the clients, the counter, the
    identifiers and their order stay as they are, and so does the entry of
    every identifier other than the one typed; the entry of the one typed
    keeps its [id_turno] and its client.  ([i] is what [int] made of the
    text typed.) *)
Theorem modificar_solo_el_turno (i : option Z) (op : Opcion) (m : Mundo) :
  let s := sistema m in
  let s' := sistema (fst (modificar_o_cancelar_turno i op m)) in
  clientes s' = clientes s /\
  next_id s' = next_id s /\
  Dict.keys (turnos s') = Dict.keys (turnos s) /\
  (forall k, i <> Some k ->
             get_turno k (turnos s') = get_turno k (turnos s)) /\
  (forall k t, i = Some k -> get_turno k (turnos s) = Some t ->
     exists t', get_turno k (turnos s') = Some t' /\
                id_turno t' = id_turno t /\ dni_cliente t' = dni_cliente t).
Proof.
  intros s s'. subst s'. unfold modificar_o_cancelar_turno. fold s.
  assert (Hsame : let s' := sistema m in
            clientes s' = clientes s /\ next_id s' = next_id s /\
            Dict.keys (turnos s') = Dict.keys (turnos s) /\
            (forall k, i <> Some k ->
                       get_turno k (turnos s') = get_turno k (turnos s)) /\
            (forall k t, i = Some k ->
               get_turno k (turnos s) = Some t ->
               exists t', get_turno k (turnos s') = Some t' /\
                          id_turno t' = id_turno t /\
                          dni_cliente t' = dni_cliente t)).
  { repeat split; trivial. intros k t _ Hk. exists t. auto. }
  destruct (Dict.is_empty (turnos s)); [exact Hsame|].
  destruct i as [id|]; [|exact Hsame].
  destruct (get_turno id (turnos s)) as [t|] eqn:Hg; [|exact Hsame].
  assert (Hmod : forall t', id_turno t' = id_turno t ->
                            dni_cliente t' = dni_cliente t ->
            let s' := mk_Peluqueria (clientes s) (set_turno id t' (turnos s))
                        (next_id s) in
            clientes s' = clientes s /\ next_id s' = next_id s /\
            Dict.keys (turnos s') = Dict.keys (turnos s) /\
            (forall k, Some id <> Some k ->
                       get_turno k (turnos s') = get_turno k (turnos s)) /\
            (forall k t0, Some id = Some k ->
               get_turno k (turnos s) = Some t0 ->
               exists t1, get_turno k (turnos s') = Some t1 /\
                          id_turno t1 = id_turno t0 /\
                          dni_cliente t1 = dni_cliente t0)).
  { intros t' E1 E2. cbn [clientes turnos next_id].
    split; [reflexivity|]. split; [reflexivity|]. split.
    - apply (keys_set_present Z.eq_dec id t' t _ Hg).
    - split.
      + intros k Hk. apply get_set_neq. congruence.
      + intros k t0 Hk Hg0. injection Hk as <-.
        exists t'. split; [apply get_set_eq|].
        assert (t0 = t) by congruence. subst t0. auto. }
  destruct op as [f h|sv| |]; [| | |exact Hsame].
  - destruct (turno_ocupado s f h); [exact Hsame|]. apply Hmod; reflexivity.
  - apply Hmod; reflexivity.
  - apply Hmod; reflexivity.
Qed.

Lemma modificar_solo_el_turno_witness :
  snd (modificar_o_cancelar_turno (Some 2) CancelarTurno ej_mundo_doble)
  = TurnoActualizado
  /\ get_turno 1 (turnos (sistema (fst (modificar_o_cancelar_turno (Some 2)
                 CancelarTurno ej_mundo_doble))))
  = get_turno 1 (turnos (sistema ej_mundo_doble)).
Proof.
  split; [reflexivity|].
  destruct (modificar_solo_el_turno (Some 2) CancelarTurno ej_mundo_doble)
    as (_ & _ & _ & H & _).
  apply H. discriminate.
Defined.

(** ** Registering a client *)

(** X10. [registrar_cliente]: a DNI already in the table is refused and
    nothing changes; otherwise the client is added at the end of the table
    under that DNI with the name and telephone given, the appointments and
    the counter are untouched, and both files are rewritten. *)
Theorem registrar_cliente_casos (d n t : string) (m : Mundo) :
  let self := sistema m in
  let r := registrar_cliente d n t m in
  (Dict.mem string_dec d (clientes self) = true ->
     r = (m, ClienteYaExiste)) /\
  (Dict.mem string_dec d (clientes self) = false ->
     snd r = ClienteRegistrado /\
     clientes (sistema (fst r))
       = (clientes self ++ [(d, mk_Cliente d n t)])%list /\
     get_cliente d (clientes (sistema (fst r))) = Some (mk_Cliente d n t) /\
     turnos (sistema (fst r)) = turnos self /\
     next_id (sistema (fst r)) = next_id self /\
     disco (fst r) = archivos_de (sistema (fst r)) /\
     guardados (fst r) = S (guardados m)).
Proof.
  intros self r. subst r. unfold registrar_cliente. fold self. split.
  - intros ->. reflexivity.
  - intros Hm. rewrite Hm. cbn [fst snd sistema guardar_datos clientes turnos
                                next_id disco guardados].
    repeat split.
    + apply set_absent, mem_false_get, Hm.
    + apply get_set_eq.
Qed.

Lemma registrar_cliente_casos_witness :
  registrar_cliente "123" "Eva" "777" ej_mundo1 = (ej_mundo1, ClienteYaExiste)
  /\ get_cliente "456" (clientes (sistema (fst (registrar_cliente "456" "Eva" "777" ej_mundo1))))
     = Some (mk_Cliente "456" "Eva" "777").
Proof.
  split.
  - apply (proj1 (registrar_cliente_casos "123" "Eva" "777" ej_mundo1)).
    reflexivity.
  - apply (proj2 (registrar_cliente_casos "456" "Eva" "777" ej_mundo1)).
    reflexivity.
Defined.

(** ** Listings *)





(** ** Loading files that the program did not write *)






Lemma get_fold_set_some (c : string) (kvs : list (string * string))
  (d : Dict.t (K:=string) (V:=option string)) :
  ~ In c (map fst kvs) ->
  Dict.get string_dec c
    (fold_left (fun d kv => Dict.set string_dec (fst kv) (Some (snd kv)) d)
               kvs d)
  = Dict.get string_dec c d.
Proof.
  revert d. induction kvs as [|[k v] kvs IH]; intros d Hn; simpl; trivial.
  rewrite IH by (intros Hin; apply Hn; right; exact Hin).
  apply get_set_neq. intros E. apply Hn. left. symmetry. exact E.
Qed.

Lemma get_fold_set_none (c : string) (ks : list string)
  (d : Dict.t (K:=string) (V:=option string)) :
  ~ In c ks ->
  Dict.get string_dec c
    (fold_left (fun d k => Dict.set string_dec k None d) ks d)
  = Dict.get string_dec c d.
Proof.
  revert d. induction ks as [|k ks IH]; intros d Hn; simpl; trivial.
  rewrite IH by (intros Hin; apply Hn; right; exact Hin).
  apply get_set_neq. intros E. apply Hn. left. symmetry. exact E.
Qed.

Lemma In_skipn {A} (x : A) (n : nat) (l : list A) :
  In x (skipn n l) -> In x l.
Proof.
  revert l. induction n as [|n IH]; intros [|a l]; simpl; auto.
Qed.

(** A column that the header does not name is no key of the row. *)
Lemma fila_dict_sin_columna (c : string) (h row : fila) :
  ~ In c h -> Dict.get string_dec c (fila_dict h row) = None.
Proof.
  intros Hn. unfold fila_dict.
  rewrite get_fold_set_none by (intros Hin; apply Hn; eapply In_skipn; eauto).
  rewrite get_fold_set_some; [reflexivity|].
  intros Hin. apply Hn. apply in_map_iff in Hin as [[k v] [E Hin]].
  simpl in E. subst k. eapply in_combine_l; eauto.
Qed.

Lemma cargar_turnos_todos py_int (P : TurnoPy -> Prop) rows (ts ts' : Dict.t)
  (mx mx' : Z) :
  (forall row t, In row rows -> leer_turno py_int row = Ok t -> P t) ->
  Forall P (Dict.values ts) ->
  cargar_turnos py_int rows ts mx = Ok (ts', mx') ->
  Forall P (Dict.values ts').
Proof.
  revert ts mx. induction rows as [|row rows IH]; intros ts mx Hrows Hts;
    cbn [cargar_turnos].
  - intros H. injection H as <- _. exact Hts.
  - destruct (leer_turno py_int row) as [t|] eqn:Hl; [|discriminate].
    cbn [bind].
    apply IH.
    + intros r t' Hin. apply Hrows. right. exact Hin.
    + unfold Dict.values in *. rewrite Forall_map in *.
      apply Forall_set; [|exact Hts]. apply (Hrows row t); [left|]; trivial.
Qed.

(** X14. An appointment file whose header has no [estado] column loads,
    when it loads, every appointment as ACTIVO. *)
Theorem cargar_sin_estado (py_int : string -> option Z) (d : Disco)
  (self : PeluqueriaPy) (h : fila) (filas : list fila) :
  Peluqueria_init py_int d = Ok self ->
  TURNOS_FILE d = Some (h :: filas) ->
  ~ In "estado" h ->
  forall t, In t (Dict.values (py_turnos self)) -> py_estado t = Some ACTIVO.
Proof.
  unfold Peluqueria_init, cargar_datos. intros H Ht Hn.
  rewrite Ht in H.
  destruct (match CLIENTES_FILE d with Some _ => _ | None => _ end)
    as [cs|]; [|discriminate]. cbn [bind py_turnos] in H.
  destruct (cargar_turnos _ _ _ _) as [[ts mx]|] eqn:Et; [|discriminate].
  cbn [bind fst snd] in H. injection H as <-. cbn [py_turnos].
  apply Forall_forall.
  apply (cargar_turnos_todos py_int (fun t => py_estado t = Some ACTIVO)
           _ _ _ _ _) with (3 := Et); [|constructor].
  intros row t Hin. cbn [DictReader] in Hin.
  apply in_map_iff in Hin as [r [<- _]].
  unfold leer_turno, campo_o.
  rewrite (fila_dict_sin_columna "estado" h r Hn).
  destruct (campo_int _ _ _); [|discriminate]. cbn [bind].
  destruct (campo _ "dni_cliente"); [|discriminate]. cbn [bind].
  destruct (campo _ "fecha"); [|discriminate]. cbn [bind].
  destruct (campo _ "hora"); [|discriminate]. cbn [bind].
  destruct (campo _ "servicio"); [|discriminate]. cbn [bind].
  intros E. injection E as <-. reflexivity.
Qed.

Lemma cargar_sin_estado_witness :
  Peluqueria_init ej_int (mk_Disco None (Some ej_turnos_sin_estado))
    = Ok (crudo (mk_Peluqueria Dict.empty
            [(4, mk_Turno 4 "123" "2024-05-01" "10:00" "cut" "ACTIVO")] 5))
  /\ py_estado (crudo_turno
                  (mk_Turno 4 "123" "2024-05-01" "10:00" "cut" "ACTIVO"))
     = Some ACTIVO.
Proof.
  split; [reflexivity|].
  apply (cargar_sin_estado ej_int
           (mk_Disco None (Some ej_turnos_sin_estado))
           (crudo (mk_Peluqueria Dict.empty
              [(4, mk_Turno 4 "123" "2024-05-01" "10:00" "cut" "ACTIVO")] 5))
           ["id_turno"; "dni_cliente"; "fecha"; "hora"; "servicio"]
           [["4"; "123"; "2024-05-01"; "10:00"; "cut"]]);
    try reflexivity.
  - simpl. intuition discriminate.
  - left. reflexivity.
Defined.

Lemma leer_turno_falta py_int (h r : fila) (c : string) :
  In c ["id_turno"; "dni_cliente"; "fecha"; "hora"; "servicio"] ->
  ~ In c h ->
  exists e, leer_turno py_int (fila_dict h r) = Error e.
Proof.
  intros Hc Hn. unfold leer_turno.
  assert (H1 : campo (fila_dict h r) c = Error (KeyError c)).
  { unfold campo. rewrite (fila_dict_sin_columna c h r Hn). reflexivity. }
  assert (H2 : campo_int py_int (fila_dict h r) c = Error (KeyError c)).
  { unfold campo_int. rewrite (fila_dict_sin_columna c h r Hn). reflexivity. }
  simpl in Hc.
  destruct Hc as [<-|[<-|[<-|[<-|[<-|[]]]]]];
    rewrite ?H1, ?H2;
    repeat match goal with
           | |- context [bind ?x _] =>
               match x with
               | Error _ => cbn [bind]
               | _ => destruct x; cbn [bind]
               end
           end; eauto.
Qed.

Lemma leer_cliente_falta (h r : fila) (c : string) :
  In c ["dni"; "nombre"; "telefono"] ->
  ~ In c h ->
  exists e, leer_cliente (fila_dict h r) = Error e.
Proof.
  intros Hc Hn. unfold leer_cliente.
  assert (H1 : campo (fila_dict h r) c = Error (KeyError c)).
  { unfold campo. rewrite (fila_dict_sin_columna c h r Hn). reflexivity. }
  simpl in Hc.
  destruct Hc as [<-|[<-|[<-|[]]]];
    rewrite ?H1;
    repeat match goal with
           | |- context [bind ?x _] =>
               match x with
               | Error _ => cbn [bind]
               | _ => destruct x; cbn [bind]
               end
           end; eauto.
Qed.

Lemma DictReader_no_vacio (h r : fila) (filas : list fila) :
  In r filas -> r <> [] ->
  exists r0 rest, DictReader (h :: filas) = fila_dict h r0 :: rest.
Proof.
  intros Hin Hne. cbn [DictReader].
  assert (Hf : In r (filter (fun r => negb (fila_vacia r)) filas)).
  { apply filter_In. split; trivial. destruct r; [congruence|reflexivity]. }
  destruct (filter _ filas) as [|r0 l]; [destruct Hf|].
  exists r0, (map (fila_dict h) l). reflexivity.
Qed.

Lemma id_turno_primera_columna (v : string) (resto : fila) :
  Dict.get string_dec "id_turno" (fila_dict fieldnames_turnos (v :: resto))
  = Some (Some v).
Proof.
  destruct resto as [|a [|b [|c [|d [|e r]]]]]; try reflexivity.
  unfold fila_dict, fieldnames_turnos. cbn [List.length skipn].
  rewrite skipn_nil. reflexivity.
Qed.

(** X15. Files that the load cannot read stop it with an error instead of
    being skipped: a client file or an appointment file with a data row
    and a header that lacks one of the columns read with [row[...]], and,
    when the client file is readable, a first appointment row whose
    identifier is not an integer (that one with [ValueError] on the text
    found). *)
Theorem cargar_archivo_ilegible (py_int : string -> option Z) (d : Disco) :
  (forall h filas r c,
     CLIENTES_FILE d = Some (h :: filas) ->
     In r filas -> r <> [] ->
     In c ["dni"; "nombre"; "telefono"] -> ~ In c h ->
     exists e, Peluqueria_init py_int d = Error e) /\
  (forall h filas r c,
     TURNOS_FILE d = Some (h :: filas) ->
     In r filas -> r <> [] ->
     In c ["id_turno"; "dni_cliente"; "fecha"; "hora"; "servicio"] ->
     ~ In c h ->
     exists e, Peluqueria_init py_int d = Error e) /\
  (forall v resto filas s0,
     TURNOS_FILE d = Some (fieldnames_turnos :: (v :: resto) :: filas) ->
     py_int v = None ->
     Peluqueria_init py_int (mk_Disco (CLIENTES_FILE d) None) = Ok s0 ->
     Peluqueria_init py_int d = Error (ValueError v)).
Proof.
  unfold Peluqueria_init, cargar_datos. split; [|split].
  - intros h filas r c Hf Hin Hne Hc Hn. rewrite Hf.
    destruct (DictReader_no_vacio h r filas Hin Hne) as (r0 & rest & ->).
    cbn [cargar_clientes].
    destruct (leer_cliente_falta h r0 c Hc Hn) as [e ->]. cbn [bind]. eauto.
  - intros h filas r c Hf Hin Hne Hc Hn. rewrite Hf.
    destruct (match CLIENTES_FILE d with Some _ => _ | None => _ end)
      as [cs|e0]; cbn [bind]; [|eauto].
    destruct (DictReader_no_vacio h r filas Hin Hne) as (r0 & rest & ->).
    cbn [cargar_turnos].
    destruct (leer_turno_falta py_int h r0 c Hc Hn) as [e ->]. cbn [bind].
    eauto.
  - intros v resto filas s0 Hf Hv H0. rewrite Hf.
    cbn [CLIENTES_FILE TURNOS_FILE] in H0.
    destruct (match CLIENTES_FILE d with Some _ => _ | None => _ end)
      as [cs|e0]; [|discriminate]. cbn [bind].
    cbn [DictReader filter fila_vacia negb map cargar_turnos].
    unfold leer_turno, campo_int.
    rewrite id_turno_primera_columna, Hv. reflexivity.
Qed.

Lemma cargar_archivo_ilegible_witness :
  Peluqueria_init ej_int
    (mk_Disco None (Some [fieldnames_turnos; ["uno"; "123"; "2024-05-01"; "10:00"; "cut"; "ACTIVO"]]))
  = Error (ValueError "uno").
Proof.
  apply (proj2 (proj2 (cargar_archivo_ilegible ej_int
           (mk_Disco None (Some [fieldnames_turnos;
              ["uno"; "123"; "2024-05-01"; "10:00"; "cut"; "ACTIVO"]]))))
           "uno" ["123"; "2024-05-01"; "10:00"; "cut"; "ACTIVO"] []
           (crudo sistema_vacio)); reflexivity.
Defined.

(** ** The identifiers that a run hands out *)

Lemma ejecutar_opcion_contador (e : Entrada) (m : Mundo) :
  (snd (ejecutar_opcion e m) = TurnoRegistrado (next_id (sistema m)) /\
   next_id (sistema (fst (ejecutar_opcion e m))) = next_id (sistema m) + 1)
  \/
  ((forall msgs, registrados (snd (ejecutar_opcion e m) :: msgs)
                 = registrados msgs) /\
   next_id (sistema (fst (ejecutar_opcion e m))) = next_id (sistema m)).
Proof.
  destruct e as [d n t|d f h s|flt|i op| |]; cbn [ejecutar_opcion].
  - right. unfold registrar_cliente.
    destruct (Dict.mem string_dec d (clientes (sistema m))); split; reflexivity.
  - unfold solicitar_turno.
    destruct (Dict.is_empty (clientes (sistema m))); [right; split; reflexivity|].
    destruct (Dict.mem string_dec d (clientes (sistema m)));
      [|right; split; reflexivity]. cbn [negb].
    destruct (turno_ocupado (sistema m) f h); [right; split; reflexivity|].
    left. split; reflexivity.
  - right. split; [|reflexivity]. cbn [snd]. unfold listar_turnos.
    destruct (Dict.is_empty (turnos (sistema m))); [reflexivity|].
    destruct (filtrar flt (Dict.values (turnos (sistema m)))); reflexivity.
  - right. unfold modificar_o_cancelar_turno.
    destruct (Dict.is_empty (turnos (sistema m))); [split; reflexivity|].
    destruct i as [id|]; [|split; reflexivity].
    destruct (get_turno id (turnos (sistema m))); [|split; reflexivity].
    destruct op as [f h|s| |]; try (split; reflexivity).
    destruct (turno_ocupado (sistema m) f h); split; reflexivity.
  - right. split; reflexivity.
  - right. split; reflexivity.
Qed.

(** X20. In any run of the menu, from any state, the identifiers reported by
    the accepted bookings are consecutive and start at the value the
    counter had before the run, whatever refused or other rounds lie
    between them; the counter ends that many above where it started. *)
Theorem ids_consecutivos (es : list Entrada) (m : Mundo) :
  let r := ejecutar es m in
  let ids := registrados (snd r) in
  ids = ids_desde (next_id (sistema m)) (List.length ids) /\
  next_id (sistema (fst r))
  = next_id (sistema m) + Z.of_nat (List.length ids).
Proof.
  revert m. induction es as [|e es IH]; intros m; cbn [ejecutar].
  - split; [reflexivity|]. simpl. lia.
  - pose proof (ejecutar_opcion_contador e m) as Hop.
    destruct (ejecutar_opcion e m) as [m1 msg]. cbn [fst snd] in Hop.
    specialize (IH m1). destruct (ejecutar es m1) as [m2 msgs].
    cbn [fst snd] in *. destruct IH as [IH1 IH2].
    destruct Hop as [[-> Hn]|[Hmsg Hn]].
    + change (registrados (TurnoRegistrado (next_id (sistema m)) :: msgs))
        with (next_id (sistema m) :: registrados msgs).
      cbn [List.length ids_desde]. split.
      * f_equal. rewrite <- Hn. exact IH1.
      * rewrite IH2, Hn. lia.
    + rewrite Hmsg, <- Hn. split; [exact IH1|exact IH2].
Qed.

(** ** Appointments and their clients *)

Lemma Forall_values_set {V} (P : V -> Prop) (k : Z) (v : V) (d : Dict.t) :
  P v -> Forall P (Dict.values d) ->
  Forall P (Dict.values (Dict.set Z.eq_dec k v d)).
Proof.
  intros Hv H. unfold Dict.values in *. rewrite Forall_map in *.
  apply Forall_set; assumption.
Qed.

Lemma clientes_conocidos_transicion (s s' : Peluqueria) :
  transicion s s' -> clientes_conocidos s -> clientes_conocidos s'.
Proof.
  unfold clientes_conocidos.
  intros [ |d n t Hm|d f h sv Hm Ho|id t t' Hg Hc] H;
    cbn [clientes turnos]; trivial.
  - eapply Forall_impl; [|exact H]. cbn beta. intros a Ha.
    apply mem_true_get in Ha as [c Hc]. apply mem_true_get.
    unfold set_cliente.
    rewrite (set_absent _ _ _ _ (mem_false_get _ _ Hm)).
    exists c. apply get_app_l, Hc.
  - apply Forall_values_set; [exact Hm|exact H].
  - apply Forall_values_set; [|exact H].
    assert (Ht : Dict.mem string_dec (dni_cliente t) (clientes s) = true).
    { rewrite Forall_forall in H. apply H. eapply get_In_values, Hg. }
    destruct Hc; exact Ht.
Qed.

(** X21. In the program started without files, after any run of the menu,
    every stored appointment belongs to a client of the table: the name
    printed on its line of a listing is that client's name, never the
    fallback for an unknown client. *)
Theorem cliente_siempre_conocido (es : list Entrada) (t : Turno) :
  let s := sistema (fst (ejecutar es mundo_inicial)) in
  In t (Dict.values (turnos s)) ->
  exists c, get_cliente (dni_cliente t) (clientes s) = Some c /\
            nombre_mostrado s t = nombre c.
Proof.
  intros s Hin.
  assert (H : clientes_conocidos s).
  { apply (ejecutar_mantiene clientes_conocidos clientes_conocidos_transicion).
    constructor. }
  unfold clientes_conocidos in H. rewrite Forall_forall in H.
  specialize (H t Hin). apply mem_true_get in H as [c Hc].
  exists c. split; [exact Hc|]. unfold nombre_mostrado, get_cliente.
  rewrite Hc. reflexivity.
Qed.

Lemma cliente_siempre_conocido_witness :
  exists c,
    get_cliente "123" (clientes (sistema ej_mundo3)) = Some c /\
    nombre_mostrado (sistema ej_mundo3)
      (mk_Turno 1 "123" "2024-05-01" "10:00" "cut" CANCELADO) = nombre c.
Proof.
  apply (cliente_siempre_conocido
           [Registrar "123" "Ana" "555";
            Solicitar "123" ej_fecha ej_hora "cut";
            Modificar (Some 1) CancelarTurno]
           (mk_Turno 1 "123" "2024-05-01" "10:00" "cut" CANCELADO)).
  left. reflexivity.
Defined.

(* ------------------------------------------------------------------ *)
(** * The program at the keyboard *)

(** ** Asking until the answer parses *)

Lemma pedir_Some {A} (parse : string -> option A) (ls : list string)
  (a : A) (r : list string) :
  pedir parse ls = Some (a, r) <->
  exists pre l,
    ls = (pre ++ l :: r)%list /\
    Forall (fun x => parse x = None) pre /\
    parse l = Some a.
Proof.
  split.
  - revert a r. induction ls as [|l ls IH]; intros a r; cbn [pedir];
      [discriminate|].
    destruct (parse l) as [a'|] eqn:Hp.
    + intros H. injection H as <- <-. exists [], l. repeat split; trivial.
    + intros H. destruct (IH _ _ H) as (pre & l' & -> & Hpre & Hl').
      exists (l :: pre), l'. repeat split; trivial. constructor; trivial.
  - intros (pre & l & -> & Hpre & Hl).
    induction pre as [|x pre IH]; simpl.
    + rewrite Hl. reflexivity.
    + inversion Hpre as [|? ? Hx Hpre']; subst. rewrite Hx. apply IH, Hpre'.
Qed.

Lemma pedir_None {A} (parse : string -> option A) (ls : list string) :
  pedir parse ls = None <-> Forall (fun x => parse x = None) ls.
Proof.
  induction ls as [|l ls IH]; cbn [pedir].
  - split; [constructor|reflexivity].
  - destruct (parse l) eqn:Hp.
    + split; [discriminate|]. intros H. inversion H; congruence.
    + rewrite IH. split; intros H; [constructor; trivial|inversion H; trivial].
Qed.

(** X16. [pedir_fecha] and [pedir_hora] return the value of the first line
    typed that parses, having read and rejected every line before it and
    none after it; they end in [EOFError] exactly when no line left
    parses. *)
Theorem pedir_primera_valida (strptime_fecha : string -> option date)
  (strptime_hora : string -> option time) (ls : list string) :
  (forall f r,
     pedir_fecha strptime_fecha ls = Some (f, r) <->
     exists pre l, ls = (pre ++ l :: r)%list /\
                   Forall (fun x => strptime_fecha x = None) pre /\
                   strptime_fecha l = Some f) /\
  (pedir_fecha strptime_fecha ls = None <->
   Forall (fun x => strptime_fecha x = None) ls) /\
  (forall h r,
     pedir_hora strptime_hora ls = Some (h, r) <->
     exists pre l, ls = (pre ++ l :: r)%list /\
                   Forall (fun x => strptime_hora x = None) pre /\
                   strptime_hora l = Some h) /\
  (pedir_hora strptime_hora ls = None <->
   Forall (fun x => strptime_hora x = None) ls).
Proof.
  unfold pedir_fecha, pedir_hora.
  split; [|split; [|split]];
    first [intros a r; apply pedir_Some | apply pedir_None].
Qed.

(** ** Each operation reads on, never back *)

Lemma consume_ret {A} (a : A) : consume (ret a).
Proof. intros ls a' r H. injection H as _ <-. lia. Qed.

Lemma consume_input : consume input.
Proof.
  intros [|l ls] a r H; [discriminate|]. injection H as _ <-. simpl. lia.
Qed.

Lemma consume_pedir {A} (parse : string -> option A) : consume (pedir parse).
Proof.
  intros ls a r H. apply pedir_Some in H as (pre & l & -> & _ & _).
  rewrite length_app. simpl. lia.
Qed.

Lemma consume_ligar {A B} (c : Lector A) (k : A -> Lector B) :
  consume c -> (forall a, consume (k a)) -> consume (ligar c k).
Proof.
  intros Hc Hk ls b r H. unfold ligar in H.
  destruct (c ls) as [[a ls']|] eqn:E; [|discriminate].
  apply Hc in E. apply Hk in H. lia.
Qed.

Lemma ligar_Some {A B} (c : Lector A) (k : A -> Lector B) ls x :
  ligar c k ls = Some x ->
  exists a ls', c ls = Some (a, ls') /\ k a ls' = Some x.
Proof.
  unfold ligar. destruct (c ls) as [[a ls']|]; [|discriminate]. eauto.
Qed.

Ltac consumir :=
  repeat first
    [ apply consume_ret
    | apply consume_input
    | apply consume_pedir
    | apply consume_ligar; [|intros ?]
    | match goal with
      | |- consume (if ?b then _ else _) => destruct b
      | |- consume (match ?x with _ => _ end) => destruct x
      end ].

Section ConsolaFacts.
Variable strptime_fecha : string -> option date.
Variable strptime_hora : string -> option time.
Variable py_int : string -> option Z.
Variable strip : string -> string.

Lemma consume_menu_io (opcion : string) (m : Mundo) :
  consume (menu_io strptime_fecha strptime_hora py_int strip opcion m).
Proof.
  unfold menu_io, registrar_cliente_io, solicitar_turno_io, listar_turnos_io,
    modificar_o_cancelar_turno_io, pedir_fecha, pedir_hora.
  consumir.
Qed.

(** ** Reading the answers when needed or beforehand *)

Lemma registrar_cliente_io_refina (m : Mundo) ls m' msg r :
  registrar_cliente_io strip m ls = Some ((m', msg), r) ->
  exists e, ejecutar_opcion e m = (m', msg).
Proof.
  unfold registrar_cliente_io. intros H.
  apply ligar_Some in H as (d & l1 & _ & H).
  destruct (Dict.mem string_dec (strip d) (clientes (sistema m))) eqn:Hm.
  - injection H as <- <- _. exists (Registrar (strip d) "" "").
    cbn [ejecutar_opcion]. unfold registrar_cliente. rewrite Hm. reflexivity.
  - apply ligar_Some in H as (n & l2 & _ & H).
    apply ligar_Some in H as (t & l3 & _ & H).
    injection H as <- <- _.
    exists (Registrar (strip d) (strip n) (strip t)).
    cbn [ejecutar_opcion]. unfold registrar_cliente. rewrite Hm. reflexivity.
Qed.

Lemma solicitar_turno_io_refina (m : Mundo) ls m' msg r :
  solicitar_turno_io strptime_fecha strptime_hora strip m ls
  = Some ((m', msg), r) ->
  exists e, ejecutar_opcion e m = (m', msg).
Proof.
  unfold solicitar_turno_io. intros H.
  destruct (Dict.is_empty (clientes (sistema m))) eqn:He.
  - injection H as <- <- _.
    exists (Solicitar "" (mk_date 0 0 0) (mk_time 0 0) "").
    cbn [ejecutar_opcion]. unfold solicitar_turno. rewrite He. reflexivity.
  - apply ligar_Some in H as (d & l1 & _ & H).
    destruct (Dict.mem string_dec (strip d) (clientes (sistema m))) eqn:Hm;
      cbn [negb] in H.
    + apply ligar_Some in H as (f & l2 & _ & H).
      apply ligar_Some in H as (h & l3 & _ & H).
      destruct (turno_ocupado (sistema m) f h) eqn:Ho.
      * injection H as <- <- _. exists (Solicitar (strip d) f h "").
        cbn [ejecutar_opcion]. unfold solicitar_turno.
        rewrite He, Hm, Ho. reflexivity.
      * apply ligar_Some in H as (s & l4 & _ & H).
        injection H as <- <- _. exists (Solicitar (strip d) f h (strip s)).
        cbn [ejecutar_opcion]. unfold solicitar_turno.
        rewrite He, Hm, Ho. reflexivity.
    + injection H as <- <- _.
      exists (Solicitar (strip d) (mk_date 0 0 0) (mk_time 0 0) "").
      cbn [ejecutar_opcion]. unfold solicitar_turno.
      rewrite He, Hm. reflexivity.
Qed.

Lemma listar_turnos_io_refina (self : Peluqueria) ls msg r :
  listar_turnos_io strptime_fecha strip self ls = Some (msg, r) ->
  exists flt, listar_turnos flt self = msg.
Proof.
  unfold listar_turnos_io, listar_turnos. intros H.
  destruct (Dict.is_empty (turnos self)) eqn:He.
  - injection H as <- _. exists Todos. reflexivity.
  - apply ligar_Some in H as (o & l1 & _ & H).
    apply ligar_Some in H as (l & l2 & Hl & H).
    assert (Hmsg : msg = match l with
                         | [] => SinCoincidencias
                         | _ => Listado (ordenar l)
                         end).
    { destruct l; injection H as <- _; reflexivity. }
    clear H. subst msg.
    destruct (strip o =? "2")%string.
    + apply ligar_Some in Hl as (d & l3 & _ & Hl). injection Hl as <- _.
      exists (PorDni (strip d)). cbn [filtrar].
      destruct (filter _ _); reflexivity.
    + destruct (strip o =? "3")%string.
      * apply ligar_Some in Hl as (f & l3 & _ & Hl). injection Hl as <- _.
        exists (PorFecha f). cbn [filtrar].
        destruct (filter _ _); reflexivity.
      * injection Hl as <- _. exists Todos. cbn [filtrar].
        destruct (Dict.values _); reflexivity.
Qed.

Lemma modificar_o_cancelar_turno_io_refina (m : Mundo) ls m' msg r :
  modificar_o_cancelar_turno_io strptime_fecha strptime_hora py_int strip m ls
  = Some ((m', msg), r) ->
  exists e, ejecutar_opcion e m = (m', msg).
Proof.
  unfold modificar_o_cancelar_turno_io. intros H.
  destruct (Dict.is_empty (turnos (sistema m))) eqn:He.
  - injection H as <- <- _. exists (Modificar None OtraOpcion).
    cbn [ejecutar_opcion]. unfold modificar_o_cancelar_turno.
    rewrite He. reflexivity.
  - apply ligar_Some in H as (i & l1 & _ & H).
    destruct (py_int i) as [id|] eqn:Hp.
    + destruct (get_turno id (turnos (sistema m))) as [t|] eqn:Hg.
      * apply ligar_Some in H as (o & l2 & _ & H).
        destruct (strip o =? "1")%string.
        { apply ligar_Some in H as (f & l3 & _ & H).
          apply ligar_Some in H as (h & l4 & _ & H).
          exists (Modificar (py_int i) (ModificarFechaHora f h)).
          cbn [ejecutar_opcion]. unfold modificar_o_cancelar_turno.
          rewrite He, Hp, Hg.
          destruct (turno_ocupado (sistema m) f h);
            injection H as <- <- _; reflexivity. }
        destruct (strip o =? "2")%string.
        { apply ligar_Some in H as (s & l3 & _ & H).
          injection H as <- <- _.
          exists (Modificar (py_int i) (ModificarServicio (strip s))).
          cbn [ejecutar_opcion]. unfold modificar_o_cancelar_turno.
          rewrite He, Hp, Hg. reflexivity. }
        destruct (strip o =? "3")%string.
        { injection H as <- <- _. exists (Modificar (py_int i) CancelarTurno).
          cbn [ejecutar_opcion]. unfold modificar_o_cancelar_turno.
          rewrite He, Hp, Hg. reflexivity. }
        injection H as <- <- _. exists (Modificar (py_int i) OtraOpcion).
        cbn [ejecutar_opcion]. unfold modificar_o_cancelar_turno.
        rewrite He, Hp, Hg. reflexivity.
      * injection H as <- <- _. exists (Modificar (py_int i) OtraOpcion).
        cbn [ejecutar_opcion]. unfold modificar_o_cancelar_turno.
        rewrite He, Hp, Hg. reflexivity.
    + injection H as <- <- _. exists (Modificar (py_int i) OtraOpcion).
      cbn [ejecutar_opcion]. unfold modificar_o_cancelar_turno.
      rewrite He, Hp. reflexivity.
Qed.

Lemma menu_io_refina (opcion : string) (m : Mundo) ls m' msg r :
  menu_io strptime_fecha strptime_hora py_int strip opcion m ls = Some ((m', msg), r) ->
  exists e, ejecutar_opcion e m = (m', msg).
Proof.
  unfold menu_io.
  destruct (opcion =? "1")%string; [apply registrar_cliente_io_refina|].
  destruct (opcion =? "2")%string; [apply solicitar_turno_io_refina|].
  destruct (opcion =? "3")%string.
  { intros H. apply ligar_Some in H as (msg0 & l1 & Hl & H).
    injection H as <- <- _.
    apply listar_turnos_io_refina in Hl as [flt <-].
    exists (Listar flt). reflexivity. }
  destruct (opcion =? "4")%string;
    [apply modificar_o_cancelar_turno_io_refina|].
  destruct (opcion =? "5")%string.
  { intros H. injection H as <- <- _. exists Guardar. reflexivity. }
  intros H. injection H as <- <- _. exists Otra. reflexivity.
Qed.


(** What every round keeps, a session keeps. *)
Lemma ejecutar_io_mantiene (P : Mundo -> Prop) :
  (forall e m, P m -> P (fst (ejecutar_opcion e m))) ->
  forall n m ls,
    P m -> P (fst (fst (ejecutar_io strptime_fecha strptime_hora py_int strip n m ls))).
Proof.
  intros Hstep n. induction n as [|n IH]; intros m ls HP; cbn [ejecutar_io];
    [exact HP|].
  destruct (input ls) as [[o ls1]|]; [|exact HP].
  destruct (strip o =? "6")%string; [exact HP|].
  destruct (menu_io _ _ _ _ _ m ls1) as [[[m' msg] ls2]|] eqn:Hop; [|exact HP].
  apply menu_io_refina in Hop as [e He].
  specialize (Hstep e m HP). rewrite He in Hstep. cbn [fst] in Hstep.
  specialize (IH m' ls2 Hstep).
  destruct (ejecutar_io _ _ _ _ n m' ls2) as [[mf msgs] fin]. exact IH.
Qed.

(** One more round than there are lines is never used up. *)
Lemma ejecutar_io_pasos (n : nat) (m : Mundo) (ls : list string) :
  (List.length ls < n)%nat ->
  snd (ejecutar_io strptime_fecha strptime_hora py_int strip n m ls) <> SinPasos.
Proof.
  revert m ls. induction n as [|n IH]; intros m ls Hlen; [lia|].
  cbn [ejecutar_io].
  destruct ls as [|o ls1]; cbn [input]; [discriminate|].
  destruct (strip o =? "6")%string; [discriminate|].
  destruct (menu_io _ _ _ _ _ m ls1) as [[[m' msg] ls2]|] eqn:Hop;
    [|discriminate].
  apply consume_menu_io in Hop.
  specialize (IH m' ls2). simpl in Hlen.
  destruct (ejecutar_io _ _ _ _ n m' ls2) as [[mf msgs] fin].
  cbn [snd] in *. apply IH. lia.
Qed.

Lemma ids_frescos_opcion (e : Entrada) (m : Mundo) :
  ids_frescos (sistema m) -> ids_frescos (sistema (fst (ejecutar_opcion e m))).
Proof.
  intros H. destruct (ejecutar_opcion_forma e m) as [E|[s' [Ht E]]];
    rewrite E; [exact H|]. simpl. eapply ids_frescos_transicion; eauto.
Qed.

(** X18. The script, started without files: the load succeeds with the
    empty instance, and whatever is typed, the session ends by option 6 or
    at the end of the input (the round bound of the model is never
    reached), no two active appointments share a slot in the state it ends
    in, and every stored identifier is below the counter. *)
Theorem main_sin_archivos (ls : list string) :
  Peluqueria_init py_int disco_vacio = Ok (crudo sistema_vacio) /\
  exists m msgs fin,
    main strptime_fecha strptime_hora py_int strip sistema_vacio disco_vacio ls
    = (m, msgs, fin) /\
    fin <> SinPasos /\
    (forall f h : string, (activos_en f h (sistema m) <= 1)%nat) /\
    (forall id, In id (Dict.keys (turnos (sistema m))) ->
                id < next_id (sistema m)).
Proof.
  split; [reflexivity|].
  unfold main.
  set (m0 := mk_Mundo sistema_vacio disco_vacio 0).
  pose proof (ejecutar_io_pasos (S (List.length ls)) m0 ls
                (Nat.lt_succ_diag_r _)) as Hfin.
  pose proof (ejecutar_io_mantiene (fun m => sin_superposicion (sistema m))
                sin_superposicion_opcion (S (List.length ls)) m0 ls) as Hs.
  pose proof (ejecutar_io_mantiene (fun m => ids_frescos (sistema m))
                ids_frescos_opcion (S (List.length ls)) m0 ls) as Hf.
  destruct (ejecutar_io _ _ _ _ _ m0 ls) as [[m msgs] fin].
  cbn [fst snd] in *. exists m, msgs, fin.
  split; [reflexivity|]. split; [exact Hfin|]. split.
  - apply Hs. intros f h. unfold activos_en. simpl. lia.
  - apply Forall_forall. apply Hf. constructor.
Qed.

(** X19. The script, started on files that load to an instance without
    [None] fields: whatever is typed, if the script is started again on the
    files it leaves, it loads exactly the instance the session ended with
    (clients, appointments and counter), also when the session was cut by
    the end of the input.  [int] is assumed to read back what [str]
    writes. *)
Theorem main_reinicio (d : Disco) (self : Peluqueria) (ls : list string)
  (m : Mundo) (msgs : list Mensaje) (fin : Final) :
  (forall z, py_int (py_str z) = Some z) ->
  Peluqueria_init py_int d = Ok (crudo self) ->
  main strptime_fecha strptime_hora py_int strip self d ls = (m, msgs, fin) ->
  Peluqueria_init py_int (disco m) = Ok (crudo (sistema m)).
Proof.
  intros Hint Hi. unfold main.
  pose proof (ejecutar_io_mantiene (recuperable py_int)
                (fun e m => recuperable_opcion py_int e m Hint)
                (S (List.length ls)) (mk_Mundo self d 0) ls
                (recuperable_init py_int d self Hi)) as HJ.
  destruct (ejecutar_io _ _ _ _ _ _ ls) as [[m0 msgs0] fin0].
  intros H. injection H as <- _ _. destruct HJ as (_ & _ & HJ). exact HJ.
Qed.

End ConsolaFacts.

Lemma main_reinicio_witness :
  Peluqueria_init ej_int (disco ej_mundo_sesion)
  = Ok (crudo (sistema ej_mundo_sesion)).
Proof.
  eapply (main_reinicio ej_strptime_fecha ej_strptime_hora ej_int ej_strip
            disco_vacio sistema_vacio ej_sesion _ _ _ ej_int_py_str eq_refl).
  reflexivity.
Defined.

(** The sample session: a client is registered with the blanks around the
    DNI dropped, an unknown menu choice is answered, and the booking is
    cut by the end of the input while it asks for a time. *)
Example ejemplo_sesion :
  main ej_strptime_fecha ej_strptime_hora ej_int ej_strip sistema_vacio
       disco_vacio ej_sesion
  = (ej_mundo1, [ClienteRegistrado; OpcionNoValida], FinEntrada).
Proof. reflexivity. Qed.
